(** * Event log to trajectory conversion (harbor_agent.py)

    A shallow embedding of [CodeEditingAgent._convert_events_to_trajectory]
    and [CodeEditingAgent.populate_context_post_run], in the two versions
    the repository carries:

    - [packages/cea/benchmark/harbor_agent.py], the flat encoding
      ([user] / [assistant] / [tool_call] / [tool_result] events), in
      [Module Flat];
    - [harbor_agent.py], the content-block encoding ([user] / [assistant]
      events whose [message.content] is a list of blocks), in
      [Module Blocks].

    Python values are embedded dynamically: a decoded JSON value is a
    [json], and the operations the converter applies to such values
    ([dict.get], truth value, [==], [str], [or], [sum]) are functions on
    [json].  An exception is a value of [exn] returned through the
    [result] monad. *)

From Stdlib Require Import List String Ascii ZArith Bool Arith Lia.
From Stdlib Require Import DecimalString.
Import ListNotations.
Open Scope string_scope.
Open Scope Z_scope.
Set Warnings "-register-all".

(* ================================================================= *)
(** ** Decoded JSON values *)

(** What [json.loads] builds.  A [JObj] lists the items of the dict in
    insertion order, its keys distinct (as [json.loads] leaves them).
    Numbers are the integer literals; a literal with a fraction or an
    exponent (a Python float) is outside this model.  Text is a [string]
    read as a sequence of code points below 256. *)
Inductive json : Type :=
| JNull
| JBool (b : bool)
| JInt (z : Z)
| JStr (s : string)
| JArr (l : list json)
| JObj (kvs : list (string * json)).

(** What reading a line can raise besides the [JSONDecodeError] the
    loop catches. *)
Inductive ReadFailure : Type :=
| ValueError           (* [json.loads] on an integer literal too long for [int] *)
| RecursionError       (* [json.loads] on a value nested too deep *)
| UnicodeDecodeError.  (* the file iteration on bytes that are no text *)

(** Exceptions the converter can meet. *)
Inductive exn : Type :=
| AttributeError                (* [.get] on a value that is not a dict *)
| TypeError                     (* [int + str] and the like inside [sum] *)
| Uncaught (why : ReadFailure). (* raised while reading, and not caught there *)

Inductive result (A : Type) : Type :=
| Raise (e : exn)
| Ret (a : A).
Arguments Raise {A} e.
Arguments Ret {A} a.

Definition bind {A B} (m : result A) (k : A -> result B) : result B :=
  match m with
  | Raise e => Raise e
  | Ret a => k a
  end.

Notation "x <- m ;; k" := (bind m (fun x => k))
  (at level 61, m at next level, right associativity).

(* ----------------------------------------------------------------- *)
(** *** dict access *)

Fixpoint assoc (k : string) (kvs : list (string * json)) : option json :=
  match kvs with
  | [] => None
  | (k', v) :: rest => if String.eqb k k' then Some v else assoc k rest
  end.

(** [d.get(k, default)] for the items of a dict. *)
Definition lookup (kvs : list (string * json)) (k : string) (default : json)
  : json :=
  match assoc k kvs with Some v => v | None => default end.

(** [d.get(k, default)]: an [AttributeError] when [d] is not a dict. *)
Definition get (d : json) (k : string) (default : json) : result json :=
  match d with
  | JObj kvs => Ret (lookup kvs k default)
  | _ => Raise AttributeError
  end.

(** [isinstance(v, dict)] *)
Definition is_dict (v : json) : bool :=
  match v with JObj _ => true | _ => false end.

(* ----------------------------------------------------------------- *)
(** *** truth value, [or], [==] *)

Definition truthy (v : json) : bool :=
  match v with
  | JNull => false
  | JBool b => b
  | JInt z => negb (z =? 0)
  | JStr s => negb (String.eqb s "")
  | JArr l => match l with [] => false | _ => true end
  | JObj kvs => match kvs with [] => false | _ => true end
  end.

(** [a or b] *)
Definition py_or (a b : json) : json := if truthy a then a else b.

Definition Z_of_bool (b : bool) : Z := if b then 1 else 0.

(** [a == b] on decoded values: [bool] is a subtype of [int], lists are
    compared item by item, dicts as mappings. *)
Fixpoint py_eq (a b : json) {struct a} : bool :=
  match a, b with
  | JNull, JNull => true
  | JBool x, JBool y => Bool.eqb x y
  | JBool x, JInt y => Z_of_bool x =? y
  | JInt x, JBool y => x =? Z_of_bool y
  | JInt x, JInt y => x =? y
  | JStr x, JStr y => String.eqb x y
  | JArr xs, JArr ys =>
      (fix eq_items (xs : list json) (ys : list json) {struct xs} : bool :=
         match xs, ys with
         | [], [] => true
         | x :: xs', y :: ys' => py_eq x y && eq_items xs' ys'
         | _, _ => false
         end) xs ys
  | JObj xs, JObj ys =>
      (List.length xs =? List.length ys)%nat &&
      (fix eq_values (xs : list (string * json)) {struct xs} : bool :=
         match xs with
         | [] => true
         | (k, x) :: xs' =>
             match assoc k ys with
             | Some y => py_eq x y && eq_values xs'
             | None => false
             end
         end) xs
  | _, _ => false
  end.

(* ----------------------------------------------------------------- *)
(** *** [str] and [repr] *)

Definition dquote : ascii := ascii_of_nat 34.
Definition squote : ascii := ascii_of_nat 39.
Definition backslash : ascii := ascii_of_nat 92.
Definition newline : string := String (ascii_of_nat 10) "".

Fixpoint contains_char (c : ascii) (s : string) : bool :=
  match s with
  | EmptyString => false
  | String c' rest => Ascii.eqb c c' || contains_char c rest
  end.

Definition hex_digit (n : nat) : ascii :=
  match String.get n "0123456789abcdef" with
  | Some c => c
  | None => "0"%char
  end.

(** One character inside [repr(str)], [q] being the enclosing quote. *)
Definition repr_char (q c : ascii) : string :=
  let n := nat_of_ascii c in
  if Ascii.eqb c q || Ascii.eqb c backslash then String backslash (String c "")
  else if (n =? 9)%nat then String backslash "t"
  else if (n =? 10)%nat then String backslash "n"
  else if (n =? 13)%nat then String backslash "r"
  else if (n <? 32)%nat || ((127 <=? n)%nat && (n <=? 160)%nat) || (n =? 173)%nat
       then String backslash
              (String "x" (String (hex_digit (n / 16)) (String (hex_digit (n mod 16)) "")))
  else String c "".

Fixpoint repr_chars (q : ascii) (s : string) : string :=
  match s with
  | EmptyString => ""
  | String c rest => repr_char q c ++ repr_chars q rest
  end.

(** [repr(s)] for a [str]: double quotes only when the text holds a
    single quote and no double quote. *)
Definition repr_str (s : string) : string :=
  let q := if contains_char squote s && negb (contains_char dquote s)
           then dquote else squote in
  String q (repr_chars q s ++ String q "").

Definition str_int (z : Z) : string := NilZero.string_of_int (Z.to_int z).

Fixpoint join (sep : string) (l : list string) : string :=
  match l with
  | [] => ""
  | [x] => x
  | x :: rest => x ++ sep ++ join sep rest
  end.

Fixpoint py_repr (v : json) : string :=
  match v with
  | JNull => "None"
  | JBool b => if b then "True" else "False"
  | JInt z => str_int z
  | JStr s => repr_str s
  | JArr l => "[" ++ join ", " (map py_repr l) ++ "]"
  | JObj kvs =>
      "{" ++ join ", " (map (fun kv => repr_str (fst kv) ++ ": " ++ py_repr (snd kv)) kvs)
          ++ "}"
  end.

(** [str(v)], which is also what an f-string field [{v}] formats to. *)
Definition py_str (v : json) : string :=
  match v with
  | JStr s => s
  | _ => py_repr v
  end.

(* ================================================================= *)
(** ** The trajectory schema *)

(** Modelled from the spec: the classes of [harbor.models.trajectories]
    ([Step], [ToolCall], [Observation], [ObservationResult], [Metrics],
    [FinalMetrics], [Agent], [Trajectory]) and [AgentContext] are
    imported from the harbor package, which is not part of this
    repository.  They are taken as plain records with the attributes of
    the spec's data model; a field holds the value the converter passes,
    an attribute the converter leaves out is [None] ([JNull] or
    [None]), and an instance is always true in a boolean context. *)
Inductive Source : Type := SrcUser | SrcAgent.

Definition source_eqb (a b : Source) : bool :=
  match a, b with
  | SrcUser, SrcUser | SrcAgent, SrcAgent => true
  | _, _ => false
  end.

Record ToolCall : Type := mkToolCall {
  tool_call_id : json;
  function_name : json;
  arguments : json
}.

Record ObservationResult : Type := mkObservationResult {
  source_call_id : json;
  content : json
}.

Record Observation : Type := mkObservation {
  results : list ObservationResult
}.

Record Metrics : Type := mkMetrics {
  prompt_tokens : json;
  completion_tokens : json;
  cached_tokens : json
}.

Record Step : Type := mkStep {
  step_id : nat;
  timestamp : json;
  source : Source;
  message : json;
  model_name : json;
  reasoning_content : json;
  tool_calls : option (list ToolCall);
  observation : option Observation;
  metrics : option Metrics
}.

Record FinalMetrics : Type := mkFinalMetrics {
  total_prompt_tokens : option Z;
  total_completion_tokens : option Z;
  total_cached_tokens : option Z;
  total_steps : nat
}.

Record Agent : Type := mkAgent {
  agent_name : json;
  agent_version : json;
  agent_model_name : json
}.

Record Trajectory : Type := mkTrajectory {
  schema_version : string;
  session_id : json;
  agent : Agent;
  steps : list Step;
  final_metrics : option FinalMetrics
}.

Record AgentContext : Type := mkAgentContext {
  n_input_tokens : option Z;
  n_output_tokens : option Z;
  n_cache_tokens : option Z
}.

(* ================================================================= *)
(** ** Event Decoder *)

(** One line of the log file as the reading loop sees it: empty after
    [line.strip()], rejected by [json.loads] with a [JSONDecodeError],
    decoded to a value, or a line on which reading raises an exception
    that the loop does not catch. *)
Inductive LogLine : Type :=
| BlankLine
| MalformedLine
| JsonLine (v : json)
| AbortingLine (why : ReadFailure).

(** The values the lines of a log decode to, in order: the list
    [events] of a reading loop that reaches the end of the file (whether
    it does is [read_log]'s matter). *)
Fixpoint read_events (f : list LogLine) : list json :=
  match f with
  | [] => []
  | BlankLine :: rest => read_events rest          (* continue *)
  | MalformedLine :: rest => read_events rest      (* except: continue *)
  | JsonLine v :: rest => v :: read_events rest    (* events.append *)
  | AbortingLine _ :: rest => read_events rest     (* nothing decoded *)
  end.

(** The [with open(log_file) as f: for line in f: ...] loop: it ends
    with the decoded events, or with the exception of the first line on
    which reading raises anything but a [JSONDecodeError]. *)
Fixpoint read_log (f : list LogLine) : result (list json) :=
  match f with
  | [] => Ret []
  | BlankLine :: rest => read_log rest             (* continue *)
  | MalformedLine :: rest => read_log rest         (* except: continue *)
  | JsonLine v :: rest =>                          (* events.append *)
      events <- read_log rest ;; Ret (v :: events)
  | AbortingLine why :: rest => Raise (Uncaught why)
  end.

(* ================================================================= *)
(** ** Tool Correlator *)

Definition nonempty {A} (l : list A) : bool :=
  match l with [] => false | _ => true end.

(** [step.source == "agent" and step.tool_calls and
    any(tc.tool_call_id == tool_call_id for tc in step.tool_calls)] *)
Definition matching (call_id : json) (step : Step) : bool :=
  source_eqb (source step) SrcAgent &&
  match tool_calls step with
  | Some tcs => nonempty tcs &&
                existsb (fun tc => py_eq (tool_call_id tc) call_id) tcs
  | None => false
  end.

(** The body of [if matching:], up to the [break]. *)
Definition add_result (step : Step) (r : ObservationResult) : Step :=
  match observation step with
  | Some obs =>
      mkStep (step_id step) (timestamp step) (source step) (message step)
             (model_name step) (reasoning_content step) (tool_calls step)
             (Some (mkObservation (results obs ++ [r]))) (metrics step)
  | None =>
      mkStep (step_id step) (timestamp step) (source step) (message step)
             (model_name step) (reasoning_content step) (tool_calls step)
             (Some (mkObservation [r])) (metrics step)
  end.

(** [for step in reversed(steps): ...], on the reversed list; the steps
    are updated in place, so the result is the same list with at most
    one step changed. *)
Fixpoint scan_reversed (rsteps : list Step) (call_id output : json)
  : list Step :=
  match rsteps with
  | [] => []
  | step :: rest =>
      if matching call_id step
      then add_result step (mkObservationResult call_id output) :: rest
      else step :: scan_reversed rest call_id output
  end.

Definition correlate (steps : list Step) (call_id output : json)
  : list Step :=
  rev (scan_reversed (rev steps) call_id output).

(* ================================================================= *)
(** ** Metrics Aggregator *)

(** The generator
    [s.metrics.f for s in steps if s.metrics and s.metrics.f]. *)
Fixpoint selected (f : Metrics -> json) (steps : list Step) : list json :=
  match steps with
  | [] => []
  | s :: rest =>
      match metrics s with
      | Some m => if truthy (f m) then f m :: selected f rest
                  else selected f rest
      | None => selected f rest
      end
  end.

(** [acc + v] for the running [int] of [sum]. *)
Definition py_add (acc : Z) (v : json) : result Z :=
  match v with
  | JInt z => Ret (acc + z)
  | JBool b => Ret (acc + Z_of_bool b)
  | _ => Raise TypeError
  end.

Fixpoint sum_from (acc : Z) (vals : list json) : result Z :=
  match vals with
  | [] => Ret acc
  | v :: rest => acc' <- py_add acc v ;; sum_from acc' rest
  end.

(** [sum(...)] *)
Definition py_sum (vals : list json) : result Z := sum_from 0 vals.

(** [total or None] for an [int] *)
Definition or_None (total : Z) : option Z :=
  if total =? 0 then None else Some total.

(** [x or 0] for an optional [int] *)
Definition or_0 (x : option Z) : Z :=
  match x with
  | Some z => if z =? 0 then 0 else z
  | None => 0
  end.

(** The tail of [_convert_events_to_trajectory], the same in both
    versions: [if not steps: return None], the three sums and the
    [Trajectory(...)] that is returned. *)
Definition assemble (name version self_model_name session_id : json)
  (steps : list Step) : result (option Trajectory) :=
  if negb (nonempty steps) then Ret None else
  total_prompt <- py_sum (selected prompt_tokens steps) ;;
  total_completion <- py_sum (selected completion_tokens steps) ;;
  total_cached <- py_sum (selected cached_tokens steps) ;;
  Ret (Some (mkTrajectory "ATIF-v1.4" session_id
               (mkAgent name version self_model_name)
               steps
               (Some (mkFinalMetrics (or_None total_prompt)
                                     (or_None total_completion)
                                     (or_None total_cached)
                                     (List.length steps))))).

(** What [populate_context_post_run] finds under [self.logs_dir] and
    what it leaves there. *)
(** The content of [trajectory.json]: the whole dump of a trajectory,
    or what an interrupted dump leaves of a file that [open(..., "w")]
    has emptied. *)
Inductive TrajectoryFile : Type :=
| Complete (t : Trajectory)
| Truncated.

Record LogsDir : Type := mkLogsDir {
  agent_output_jsonl : option (list LogLine);   (* logs_dir/agent/output.jsonl *)
  output_jsonl : option (list LogLine);         (* logs_dir/output.jsonl *)
  trajectory_json : option TrajectoryFile       (* logs_dir/trajectory.json *)
}.

(** How the [with open(trajectory_path, "w")] block ends: normally, with
    an [OSError] of [open] (the file is untouched), or with an [OSError]
    of [json.dump] or of the closing flush (the file has been emptied by
    [open] and holds a part of the dump at most). *)
Inductive WriteOutcome : Type :=
| Written
| OpenFails
| DumpFails.

Record CodeEditingAgent : Type := mkCodeEditingAgent {
  self_model_name : json;      (* self.model_name: a str or None *)
  logs_dir : LogsDir;
  write_outcome : WriteOutcome
}.

(** The last statements of [populate_context_post_run], the same in
    both versions, reached with a trajectory in hand. *)
Definition write_and_push (self : CodeEditingAgent) (trajectory : Trajectory)
  (context : AgentContext) : LogsDir * AgentContext :=
  let dir := logs_dir self in
  let dir' :=
    match write_outcome self with
    | Written =>
        mkLogsDir (agent_output_jsonl dir) (output_jsonl dir)
                  (Some (Complete trajectory))
    | OpenFails => dir
    | DumpFails =>
        mkLogsDir (agent_output_jsonl dir) (output_jsonl dir) (Some Truncated)
    end in
  match final_metrics trajectory with
  | Some fm =>
      (dir', mkAgentContext (Some (or_0 (total_prompt_tokens fm)))
                            (Some (or_0 (total_completion_tokens fm)))
                            (Some (or_0 (total_cached_tokens fm))))
  | None => (dir', context)
  end.

(** The event's [type], [None] for a value without one. *)
Definition event_type_of (event : json) : json :=
  match event with
  | JObj kvs => lookup kvs "type" JNull
  | _ => JNull
  end.

(** The loop state: the local variables [steps] and [step_id]. *)
Definition LoopState : Type := (list Step * nat)%type.

Definition initial : LoopState := ([], 0%nat).

(** [for event in events: body] *)
Fixpoint for_each (body : LoopState -> json -> result LoopState)
  (events : list json) (st : LoopState) : result LoopState :=
  match events with
  | [] => Ret st
  | event :: rest => st' <- body st event ;; for_each body rest st'
  end.

(* ================================================================= *)
(** ** packages/cea/benchmark/harbor_agent.py: the flat encoding *)

Module Flat.

Definition name : json := JStr "code-editing-agent".
Definition version : json := JStr "1.0.0".

Definition _get_log_file (self : CodeEditingAgent) : option (list LogLine) :=
  match agent_output_jsonl (logs_dir self) with
  | Some log_file => Some log_file
  | None =>
      (* Fallback: check if file exists directly in logs_dir *)
      match output_jsonl (logs_dir self) with
      | Some alt_log_file => Some alt_log_file
      | None => None
      end
  end.

(** The [tool_result] text: [f"{output}\nSTDERR: {error}" if output
    else f"STDERR: {error}"] under [if error:]. *)
Definition combined_output (output error : json) : json :=
  if truthy error then
    if truthy output
    then JStr (py_str output ++ newline ++ "STDERR: " ++ py_str error)
    else JStr ("STDERR: " ++ py_str error)
  else output.

(** The body of [for event in events:]. *)
Definition handle_event (self : CodeEditingAgent) (st : LoopState)
  (event : json) : result LoopState :=
  let '(steps, step_id) := st in
  event_type <- get event "type" JNull ;;
  timestamp <- get event "timestamp" JNull ;;
  if py_eq event_type (JStr "user") then
    let step_id := S step_id in
    content <- get event "content" (JStr "") ;;
    Ret ((steps ++ [mkStep step_id timestamp SrcUser content
                          JNull JNull None None None])%list,
         step_id)
  else if py_eq event_type (JStr "tool_call") then
    let step_id := S step_id in
    model <- get event "model" JNull ;;
    reasoning <- get event "reasoning_content" JNull ;;
    call_id <- get event "tool_call_id" (JStr "") ;;
    tool_name <- get event "tool_name" (JStr "") ;;
    tool_input <- get event "tool_input" (JObj []) ;;
    Ret ((steps ++ [mkStep step_id timestamp SrcAgent (JStr "Tool execution")
                          (py_or model (self_model_name self))
                          reasoning
                          (Some [mkToolCall call_id tool_name tool_input])
                          None None])%list,
         step_id)
  else if py_eq event_type (JStr "tool_result") then
    call_id <- get event "tool_call_id" JNull ;;
    output <- get event "output" (JStr "") ;;
    error <- get event "error" JNull ;;
    let output := combined_output output error in
    if truthy call_id && nonempty steps
    then Ret (correlate steps call_id output, step_id)
    else Ret (steps, step_id)
  else if py_eq event_type (JStr "assistant") then
    let step_id := S step_id in
    content <- get event "content" (JStr "") ;;
    model <- get event "model" JNull ;;
    reasoning <- get event "reasoning_content" JNull ;;
    Ret ((steps ++ [mkStep step_id timestamp SrcAgent content
                          (py_or model (self_model_name self))
                          reasoning None None None])%list,
         step_id)
  else Ret (steps, step_id).

Definition _convert_events_to_trajectory (self : CodeEditingAgent)
  (log_file : list LogLine) : result (option Trajectory) :=
  events <- read_log log_file ;;
  match events with
  | [] => Ret None
  | first :: _ =>
      session_id <- get first "sessionId" (JStr "unknown") ;;
      st <- for_each (handle_event self) events initial ;;
      assemble name version (self_model_name self) session_id (fst st)
  end.

(** Returns what is under [logs_dir] afterwards and the context
    afterwards; the diagnostics it prints are left out. *)
Definition populate_context_post_run (self : CodeEditingAgent)
  (context : AgentContext) : LogsDir * AgentContext :=
  match _get_log_file self with
  | None => (logs_dir self, context)
  | Some log_file =>
      match _convert_events_to_trajectory self log_file with
      | Raise _ => (logs_dir self, context)       (* except Exception *)
      | Ret None => (logs_dir self, context)      (* if not trajectory *)
      | Ret (Some trajectory) => write_and_push self trajectory context
      end
  end.

(** The events that open a Step in this version. *)
Definition creates_step (event : json) : bool :=
  let t := event_type_of event in
  py_eq t (JStr "user") || py_eq t (JStr "tool_call")
  || py_eq t (JStr "assistant").

End Flat.

(* ================================================================= *)
(** ** harbor_agent.py: the content-block encoding *)

Module Blocks.

Definition name : json := JStr "code-editing-agent".

(** [self.version()] is inherited from [BaseInstalledAgent] here; its
    value is an argument of the conversion. *)

Definition _get_log_file (self : CodeEditingAgent) : option (list LogLine) :=
  match agent_output_jsonl (logs_dir self) with
  | Some log_file => Some log_file
  | None => None
  end.

(** [isinstance(block, dict) and block.get("type") == "tool_use"] *)
Definition is_tool_use (block : json) : bool :=
  match block with
  | JObj kvs => py_eq (lookup kvs "type" JNull) (JStr "tool_use")
  | _ => false
  end.

Definition tool_call_of (block : json) : ToolCall :=
  match block with
  | JObj kvs => mkToolCall (lookup kvs "id" (JStr ""))
                           (lookup kvs "name" (JStr ""))
                           (lookup kvs "input" (JObj []))
  | _ => mkToolCall (JStr "") (JStr "") (JObj [])
  end.

(** [for block in content: ...], threading [tool_calls] and
    [text_content]. *)
Fixpoint scan_blocks (blocks : list json) (tool_calls : list ToolCall)
  (text_content : string) : list ToolCall * string :=
  match blocks with
  | [] => (tool_calls, text_content)
  | block :: rest =>
      if is_tool_use block
      then scan_blocks rest (tool_calls ++ [tool_call_of block]) text_content
      else scan_blocks rest tool_calls (text_content ++ py_str block)
  end.

(** The body of [for event in events:]. *)
Definition handle_event (self : CodeEditingAgent) (st : LoopState)
  (event : json) : result LoopState :=
  let '(steps, step_id) := st in
  event_type <- get event "type" JNull ;;
  timestamp <- get event "timestamp" JNull ;;
  message <- get event "message" (JObj []) ;;
  if py_eq event_type (JStr "user") then
    let step_id := S step_id in
    content <- get message "content" (JStr "") ;;
    let text_content := py_str content in
    Ret ((steps ++ [mkStep step_id timestamp SrcUser (JStr text_content)
                          JNull JNull None None None])%list,
         step_id)
  else if py_eq event_type (JStr "assistant") then
    let step_id := S step_id in
    content <- get message "content" (JStr "") ;;
    model_name <- get message "model" JNull ;;
    usage <- get message "usage" (JObj []) ;;
    let '(tool_calls, text_content) :=
      match content with
      | JArr blocks => scan_blocks blocks [] ""
      | _ => ([], py_str content)
      end in
    metrics <- (if truthy usage then
                  input_tokens <- get usage "input_tokens" JNull ;;
                  output_tokens <- get usage "output_tokens" JNull ;;
                  cache_read <- get usage "cache_read_input_tokens" JNull ;;
                  Ret (Some (mkMetrics input_tokens output_tokens cache_read))
                else Ret None) ;;
    tool_result <- get event "toolUseResult" JNull ;;
    observation <- (if truthy tool_result then
                      match tool_calls with
                      | first :: _ =>
                          stdout <- get tool_result "stdout" (JStr "") ;;
                          Ret (Some (mkObservation
                                       [mkObservationResult
                                          (tool_call_id first) stdout]))
                      | [] => Ret None
                      end
                    else Ret None) ;;
    Ret ((steps ++ [mkStep step_id timestamp SrcAgent
                          (py_or (JStr text_content) (JStr "Tool execution"))
                          (py_or model_name (self_model_name self))
                          JNull
                          (if nonempty tool_calls then Some tool_calls else None)
                          observation metrics])%list,
         step_id)
  else Ret (steps, step_id).

Definition _convert_events_to_trajectory (self : CodeEditingAgent)
  (version : json) (log_file : list LogLine) : result (option Trajectory) :=
  events <- read_log log_file ;;
  match events with
  | [] => Ret None
  | first :: _ =>
      session_id <- get first "sessionId" (JStr "unknown") ;;
      st <- for_each (handle_event self) events initial ;;
      assemble name version (self_model_name self) session_id (fst st)
  end.

Definition populate_context_post_run (self : CodeEditingAgent)
  (version : json) (context : AgentContext) : LogsDir * AgentContext :=
  match _get_log_file self with
  | None => (logs_dir self, context)
  | Some log_file =>
      match _convert_events_to_trajectory self version log_file with
      | Raise _ => (logs_dir self, context)       (* except Exception *)
      | Ret None => (logs_dir self, context)      (* if not trajectory *)
      | Ret (Some trajectory) => write_and_push self trajectory context
      end
  end.

(** The events that open a Step in this version. *)
Definition creates_step (event : json) : bool :=
  let t := event_type_of event in
  py_eq t (JStr "user") || py_eq t (JStr "assistant").

End Blocks.

(* ================================================================= *)
(** ** Both versions behind one interface *)

Inductive Encoding : Type := FlatEncoding | BlockEncoding.

Definition handle_event (enc : Encoding) (self : CodeEditingAgent)
  : LoopState -> json -> result LoopState :=
  match enc with
  | FlatEncoding => Flat.handle_event self
  | BlockEncoding => Blocks.handle_event self
  end.

Definition creates_step (enc : Encoding) : json -> bool :=
  match enc with
  | FlatEncoding => Flat.creates_step
  | BlockEncoding => Blocks.creates_step
  end.

Definition get_log_file (enc : Encoding) (self : CodeEditingAgent)
  : option (list LogLine) :=
  match enc with
  | FlatEncoding => Flat._get_log_file self
  | BlockEncoding => Blocks._get_log_file self
  end.

(** [version] is the inherited [self.version()] of the content-block
    version; the flat version has its own and ignores it. *)
Definition convert (enc : Encoding) (self : CodeEditingAgent) (version : json)
  (log_file : list LogLine) : result (option Trajectory) :=
  match enc with
  | FlatEncoding => Flat._convert_events_to_trajectory self log_file
  | BlockEncoding => Blocks._convert_events_to_trajectory self version log_file
  end.

Definition populate (enc : Encoding) (self : CodeEditingAgent) (version : json)
  (context : AgentContext) : LogsDir * AgentContext :=
  match enc with
  | FlatEncoding => Flat.populate_context_post_run self context
  | BlockEncoding => Blocks.populate_context_post_run self version context
  end.

(* ================================================================= *)
(** ** Specification-side notions *)

(** A Step holds a ToolCall whose id equals [call_id]. *)
Definition has_call (call_id : json) (step : Step) : bool :=
  match tool_calls step with
  | Some tcs => existsb (fun tc => py_eq (tool_call_id tc) call_id) tcs
  | None => false
  end.

Definition existing_results (step : Step) : list ObservationResult :=
  match observation step with
  | Some obs => results obs
  | None => []
  end.

Definition with_observation (step : Step) (obs : Observation) : Step :=
  mkStep (step_id step) (timestamp step) (source step) (message step)
         (model_name step) (reasoning_content step) (tool_calls step)
         (Some obs) (metrics step).

(** The Step sequence [steps'] is [steps] with one new result attached
    to the last agent Step holding a matching ToolCall, and nothing else
    changed. *)
Definition attaches_to_latest (steps : list Step) (call_id text : json)
  (steps' : list Step) : Prop :=
  exists before step after,
    steps = (before ++ step :: after)%list
    /\ source step = SrcAgent
    /\ has_call call_id step = true
    /\ (forall later, In later after -> has_call call_id later = false)
    /\ steps' =
       (before
          ++ with_observation step
               (mkObservation
                  (existing_results step ++ [mkObservationResult call_id text]))
          :: after)%list.

(** The token count a Step contributes to a run-level total: the
    value of the field, zero when the Step has no Metrics or the field
    holds no number. *)
Definition tokens (f : Metrics -> json) (step : Step) : Z :=
  match metrics step with
  | Some m =>
      match f m with
      | JInt z => z
      | JBool b => Z_of_bool b
      | _ => 0
      end
  | None => 0
  end.

Fixpoint exact_sum (f : Metrics -> json) (steps : list Step) : Z :=
  match steps with
  | [] => 0
  | s :: rest => tokens f s + exact_sum f rest
  end.

(** A run-level total: absent when the sum is zero. *)
Definition reported (total : Z) : option Z :=
  if Z.eq_dec total 0 then None else Some total.

(** A field of a value that is a dict, the default otherwise. *)
Definition field (v : json) (k : string) (default : json) : json :=
  match v with
  | JObj kvs => lookup kvs k default
  | _ => default
  end.

(** A content block tagged [tool_use]: a JSON object whose [type] is the
    text [tool_use]. *)
Definition tagged_tool_use (block : json) : bool :=
  match block with
  | JObj kvs =>
      match assoc "type" kvs with
      | Some (JStr tag) => String.eqb tag "tool_use"
      | _ => false
      end
  | _ => false
  end.

(** The ToolCall a tagged block stands for: its [id], its [name] as
    function name and its [input] as arguments (an empty text, and an
    empty object for the arguments, where the block has none). *)
Definition block_call (block : json) : ToolCall :=
  {| tool_call_id := field block "id" (JStr "");
     function_name := field block "name" (JStr "");
     arguments := field block "input" (JObj []) |}.

(** The ToolCalls of a list of content blocks, one for each tagged
    block, in order; and the message text, the stringified other blocks
    one after the other. *)
Fixpoint extracted_calls (blocks : list json) : list ToolCall :=
  match blocks with
  | [] => []
  | block :: rest =>
      if tagged_tool_use block
      then block_call block :: extracted_calls rest
      else extracted_calls rest
  end.

Fixpoint other_text (blocks : list json) : string :=
  match blocks with
  | [] => ""
  | block :: rest =>
      if tagged_tool_use block
      then other_text rest
      else py_str block ++ other_text rest
  end.

(** Steps built from tool calls are agent Steps: in every Step of a
    run, [tool_calls] is absent or non-empty, and present only on an
    agent Step. *)
Definition well_formed (step : Step) : Prop :=
  match tool_calls step with
  | Some tcs => source step = SrcAgent /\ tcs <> []
  | None => True
  end.

Definition calls_and_text (content : json) : list ToolCall * string :=
  match content with
  | JArr blocks => (extracted_calls blocks, other_text blocks)
  | _ => ([], py_str content)
  end.

(** The Observation of an assistant Step: one result, for the first
    ToolCall, when [toolUseResult] is true in a boolean context. *)
Definition embedded_observation (tcs : list ToolCall) (tool_result : json)
  : option Observation :=
  match tcs with
  | first :: _ =>
      if truthy tool_result
      then Some (mkObservation
                   [mkObservationResult (tool_call_id first)
                                        (field tool_result "stdout" (JStr ""))])
      else None
  | [] => None
  end.

Definition usage_metrics (usage : json) : option Metrics :=
  if truthy usage
  then Some (mkMetrics (field usage "input_tokens" JNull)
                       (field usage "output_tokens" JNull)
                       (field usage "cache_read_input_tokens" JNull))
  else None.

(** [usage.get(...)] and [tool_result.get("stdout", "")] are reached
    only under their guards; they succeed on a dict. *)
Definition gets_usage (usage : json) : bool :=
  negb (truthy usage) || is_dict usage.

Definition gets_stdout (tcs : list ToolCall) (tool_result : json) : bool :=
  negb (truthy tool_result && nonempty tcs) || is_dict tool_result.

(** How many events of a list open a Step. *)
Definition count_creating (enc : Encoding) (events : list json) : nat :=
  List.length (filter (creates_step enc) events).

(* ================================================================= *)
(** ** Sample runs *)

Definition sample_agent : CodeEditingAgent :=
  mkCodeEditingAgent (JStr "sample-model") (mkLogsDir None None None) Written.

Definition ev_user : json :=
  JObj [("type", JStr "user"); ("content", JStr "fix bug")].

Definition ev_call (id : string) : json :=
  JObj [("type", JStr "tool_call"); ("tool_call_id", JStr id);
        ("tool_name", JStr "read_file");
        ("tool_input", JObj [("path", JStr "a.txt")])].

Definition ev_result (id output : string) : list (string * json) :=
  [("type", JStr "tool_result"); ("tool_call_id", JStr id);
   ("output", JStr output)].

Definition ev_result_error (id output error : string) : list (string * json) :=
  [("type", JStr "tool_result"); ("tool_call_id", JStr id);
   ("output", JStr output); ("error", JStr error)].

Definition sample_log : list LogLine :=
  [JsonLine ev_user; MalformedLine; JsonLine (ev_call "abc"); BlankLine;
   JsonLine (JObj (ev_result "abc" "hello"));
   JsonLine (JObj [("type", JStr "status")])].

(** The Step the flat loop builds from [ev_call id] as event number [n]. *)
Definition call_step (n : nat) (id : string) : Step :=
  mkStep n JNull SrcAgent (JStr "Tool execution") (JStr "sample-model") JNull
         (Some [mkToolCall (JStr id) (JStr "read_file")
                           (JObj [("path", JStr "a.txt")])])
         None None.

Definition tool_use_block (id : string) : json :=
  JObj [("type", JStr "tool_use"); ("id", JStr id); ("name", JStr "bash");
        ("input", JObj [("command", JStr "ls")])].

Definition ev_block_assistant (tool_result : json) : list (string * json) :=
  [("type", JStr "assistant");
   ("message",
    JObj [("content", JArr [JStr "Listing. "; tool_use_block "t1";
                            tool_use_block "t2"; JStr "Done."]);
          ("usage", JObj [("input_tokens", JInt 12);
                          ("output_tokens", JInt 5)])]);
   ("toolUseResult", tool_result)].

Definition ev_usage (input output cached : json) : json :=
  JObj [("type", JStr "assistant");
        ("message",
         JObj [("content", JStr "ok");
               ("usage", JObj [("input_tokens", input);
                               ("output_tokens", output);
                               ("cache_read_input_tokens", cached)])])].

Definition usage_log : list LogLine :=
  [JsonLine (JObj [("type", JStr "user");
                   ("message", JObj [("content", JStr "hi")])]);
   JsonLine (ev_usage (JInt 10) (JInt 3) (JInt 0));
   JsonLine (ev_usage (JInt 7) JNull JNull)].

Definition empty_log_agent : CodeEditingAgent :=
  mkCodeEditingAgent (JStr "sample-model") (mkLogsDir (Some []) None None) Written.

Definition raising_log_agent : CodeEditingAgent :=
  mkCodeEditingAgent (JStr "sample-model")
    (mkLogsDir (Some [JsonLine (JInt 3)]) None None) Written.

Definition prior_context : AgentContext :=
  mkAgentContext (Some 5) None (Some 1).

(* ================================================================= *)
(** ** The Steps the handlers open *)

(** The Step each branch of the two loops appends, for a dict event
    with items [kvs] met when the counter is [n]; [mkvs] are the items
    of the event's [message] in the content-block encoding. *)
Definition flat_user_step (n : nat) (kvs : list (string * json)) : Step :=
  mkStep (S n) (lookup kvs "timestamp" JNull) SrcUser
         (lookup kvs "content" (JStr "")) JNull JNull None None None.

Definition flat_tool_call_step (self : CodeEditingAgent) (n : nat)
  (kvs : list (string * json)) : Step :=
  mkStep (S n) (lookup kvs "timestamp" JNull) SrcAgent (JStr "Tool execution")
         (py_or (lookup kvs "model" JNull) (self_model_name self))
         (lookup kvs "reasoning_content" JNull)
         (Some [mkToolCall (lookup kvs "tool_call_id" (JStr ""))
                           (lookup kvs "tool_name" (JStr ""))
                           (lookup kvs "tool_input" (JObj []))])
         None None.

Definition flat_assistant_step (self : CodeEditingAgent) (n : nat)
  (kvs : list (string * json)) : Step :=
  mkStep (S n) (lookup kvs "timestamp" JNull) SrcAgent
         (lookup kvs "content" (JStr ""))
         (py_or (lookup kvs "model" JNull) (self_model_name self))
         (lookup kvs "reasoning_content" JNull)
         None None None.

Definition blocks_user_step (n : nat) (kvs mkvs : list (string * json)) : Step :=
  mkStep (S n) (lookup kvs "timestamp" JNull) SrcUser
         (JStr (py_str (lookup mkvs "content" (JStr ""))))
         JNull JNull None None None.

Definition blocks_assistant_step (self : CodeEditingAgent) (n : nat)
  (kvs mkvs : list (string * json)) : Step :=
  mkStep (S n) (lookup kvs "timestamp" JNull) SrcAgent
    (py_or (JStr (snd (calls_and_text (lookup mkvs "content" (JStr "")))))
           (JStr "Tool execution"))
    (py_or (lookup mkvs "model" JNull) (self_model_name self))
    JNull
    (if nonempty (fst (calls_and_text (lookup mkvs "content" (JStr ""))))
     then Some (fst (calls_and_text (lookup mkvs "content" (JStr ""))))
     else None)
    (embedded_observation
       (fst (calls_and_text (lookup mkvs "content" (JStr ""))))
       (lookup kvs "toolUseResult" JNull))
    (usage_metrics (lookup mkvs "usage" (JObj []))).

(** A Step without its observation. *)
Definition forget_observation (s : Step) : Step :=
  mkStep (step_id s) (timestamp s) (source s) (message s) (model_name s)
         (reasoning_content s) (tool_calls s) None (metrics s).

(** A user Step carries nothing but its message. *)
Definition bare_user (s : Step) : Prop :=
  source s = SrcUser ->
  model_name s = JNull /\ reasoning_content s = JNull
  /\ tool_calls s = None /\ observation s = None /\ metrics s = None.

(** A Step of the flat loop: without ToolCall and Observation, or an
    agent Step with the placeholder message and one ToolCall, whose id
    every result it holds refers to. *)
Definition flat_shaped (s : Step) : Prop :=
  (tool_calls s = None /\ observation s = None)
  \/ exists tc,
       tool_calls s = Some [tc] /\ source s = SrcAgent
       /\ message s = JStr "Tool execution"
       /\ match observation s with
          | None => True
          | Some obs =>
              results obs <> []
              /\ Forall (fun r => py_eq (tool_call_id tc) (source_call_id r) = true)
                        (results obs)
          end.

(** A Step of the content-block loop: without Observation, or an
    agent Step whose Observation is one result for its first
    ToolCall. *)
Definition block_shaped (s : Step) : Prop :=
  observation s = None
  \/ exists first more text,
       source s = SrcAgent /\ tool_calls s = Some (first :: more)
       /\ observation s
          = Some (mkObservation [mkObservationResult (tool_call_id first) text]).

(** A later state of a Step: the same Step but for its observation,
    which holds the earlier results followed by new ones. *)
Definition grows (old new : Step) : Prop :=
  forget_observation new = forget_observation old
  /\ exists more, existing_results new = (existing_results old ++ more)%list.

(** A value [sum] can add to an [int]. *)
Definition numeric (v : json) : bool :=
  match v with
  | JInt _ | JBool _ => true
  | _ => false
  end.

(** A token count that passes the filter of the sums and is no number:
    a non-empty text, list or dict. *)
Definition bad_count (f : Metrics -> json) (s : Step) : bool :=
  match metrics s with
  | Some m => truthy (f m) && negb (numeric (f m))
  | None => false
  end.

Definition has_bad_count (s : Step) : bool :=
  bad_count prompt_tokens s || bad_count completion_tokens s
  || bad_count cached_tokens s.


Definition sample_log_agent : CodeEditingAgent :=
  mkCodeEditingAgent (JStr "sample-model")
    (mkLogsDir None (Some sample_log) None) Written.

(** The number a token count stands for in a sum. *)
Definition count_of (v : json) : Z :=
  match v with
  | JInt z => z
  | JBool b => Z_of_bool b
  | _ => 0
  end.

(** The count an event reports under [message.usage.key]: that of an
    [assistant] event, zero for any other event. *)
Definition event_usage (key : string) (event : json) : Z :=
  if py_eq (event_type_of event) (JStr "assistant")
  then count_of (field (field (field event "message" (JObj [])) "usage" (JObj []))
                       key JNull)
  else 0.

Fixpoint sum_events (key : string) (events : list json) : Z :=
  match events with
  | [] => 0
  | e :: rest => event_usage key e + sum_events key rest
  end.




(* ================================================================= *)
(** ** create_run_agent_commands *)

(** [os.environ]: the value of a variable, [None] when it is unset;
    [os.environ.get(k, default)]. *)
Definition Environ : Type := string -> option string.

Definition environ_get (environ : Environ) (k default : string) : string :=
  match environ k with
  | Some v => v
  | None => default
  end.

(** Modelled from the spec: [ExecInput] is a class of the harbor
    package, taken as a plain record of the two attributes the code
    passes; [env] is [None] where the code gives none. *)
Record ExecInput : Type := mkExecInput {
  command : string;
  env : option (list (string * string))
}.

(** [shlex.quote] of the standard library: the text itself when it is
    not empty and holds only characters of [[A-Za-z0-9_@%+=:,./-]],
    otherwise the text between single quotes with each single quote
    written as ['"'"']. *)
Definition is_safe (c : ascii) : bool :=
  let n := nat_of_ascii c in
  ((48 <=? n) && (n <=? 57))%nat || ((65 <=? n) && (n <=? 90))%nat
  || ((97 <=? n) && (n <=? 122))%nat || contains_char c "_@%+=:,./-".

Fixpoint all_safe (s : string) : bool :=
  match s with
  | EmptyString => true
  | String c rest => is_safe c && all_safe rest
  end.

Fixpoint replace_squote (s : string) : string :=
  match s with
  | EmptyString => ""
  | String c rest =>
      if Ascii.eqb c squote
      then String squote (String dquote (String squote (String dquote
             (String squote (replace_squote rest)))))
      else String c (replace_squote rest)
  end.

Definition shlex_quote (s : string) : string :=
  if String.eqb s "" then String squote (String squote "")
  else if all_safe s then s
  else String squote (replace_squote s ++ String squote "").

(** [str.lower] on code points below 256. *)
Definition lower_char (c : ascii) : ascii :=
  let n := nat_of_ascii c in
  if ((65 <=? n) && (n <=? 90))%nat
     || ((192 <=? n) && (n <=? 222) && negb (n =? 215))%nat
  then ascii_of_nat (n + 32)
  else c.

Fixpoint lower (s : string) : string :=
  match s with
  | EmptyString => ""
  | String c rest => String (lower_char c) (lower rest)
  end.

(** [os.environ.get(k, "").lower() in ("1", "true", "yes")] *)
Definition enabled (environ : Environ) (k : string) : bool :=
  let v := lower (environ_get environ k "") in
  String.eqb v "1" || String.eqb v "true" || String.eqb v "yes".

(** [{k: v for k, v in env.items() if v}] *)
Definition drop_empty (items : list (string * string)) : list (string * string) :=
  filter (fun kv => negb (String.eqb (snd kv) "")) items.

Definition tee_output : string := "2>&1 | tee /logs/agent/output.jsonl".

Module FlatRun.

(** [-m <model>], from [self.model_name]; [shlex.quote] of a value
    that is no text is a [TypeError]. *)
Definition model_arg (self : CodeEditingAgent) : result string :=
  if truthy (self_model_name self) then
    match self_model_name self with
    | JStr m => Ret ("-m " ++ shlex_quote m)
    | _ => Raise TypeError
    end
  else Ret "".

Definition flags (environ : Environ) : list string :=
  ((if enabled environ "AGENT_ENABLE_THINKING" then ["--think"] else [])
   ++ (if enabled environ "AGENT_ENABLE_TOOL_FALLBACK"
       then ["--tool-fallback"] else []))%list.

Definition create_run_agent_commands (self : CodeEditingAgent)
  (environ : Environ) (instruction : string) : result (list ExecInput) :=
  let escaped_instruction := shlex_quote instruction in
  let env :=
    drop_empty
      [("FRIENDLI_TOKEN", environ_get environ "FRIENDLI_TOKEN" "");
       ("BUN_INSTALL", "/root/.bun");
       ("PATH", "/root/.bun/bin:/usr/local/bin:/usr/bin:/bin")] in
  model_arg <- model_arg self ;;
  let flags_str := join " " (flags environ) in
  Ret [mkExecInput "mkdir -p /logs/agent" None;
       mkExecInput
         ("/root/.bun/bin/bun /agent/packages/cea/src/entrypoints/headless.ts -p "
            ++ escaped_instruction ++ " " ++ model_arg ++ " " ++ flags_str ++ " "
            ++ tee_output)
         (Some env)].

End FlatRun.

Module BlocksRun.

Definition create_run_agent_commands (environ : Environ) (instruction : string)
  : list ExecInput :=
  let escaped_instruction := shlex_quote instruction in
  let env :=
    drop_empty [("FRIENDLI_TOKEN", environ_get environ "FRIENDLI_TOKEN" "")] in
  [mkExecInput "mkdir -p /logs/agent" None;
   mkExecInput
     ("export BUN_INSTALL=$HOME/.bun && export PATH=$BUN_INSTALL/bin:$PATH && "
        ++ "cd /app && bun run headless -p " ++ escaped_instruction ++ " "
        ++ tee_output)
     (Some env)].

End BlocksRun.

(** *** Reading a command line back *)

(** The words a POSIX shell splits a command line into, for lines made
    of the characters [shlex.quote] leaves bare, blanks, single-quoted
    text and double-quoted text without expansions; [None] for any other
    line.  [in_word] tells whether a word has been begun; the first
    word of the result continues the word being read. *)
Inductive Quoting : Type := Bare | Single | Double.

Definition push (c : ascii) (words : option (list string))
  : option (list string) :=
  match words with
  | Some (w :: ws) => Some (String c w :: ws)
  | _ => None
  end.

Fixpoint sh_words (q : Quoting) (in_word : bool) (line : string)
  : option (list string) :=
  match line with
  | EmptyString =>
      match q with
      | Bare => Some (if in_word then [""] else [])
      | _ => None
      end
  | String c rest =>
      match q with
      | Bare =>
          if Ascii.eqb c " " then
            if in_word then option_map (cons "") (sh_words Bare false rest)
            else sh_words Bare false rest
          else if Ascii.eqb c squote then sh_words Single true rest
          else if Ascii.eqb c dquote then sh_words Double true rest
          else if is_safe c then push c (sh_words Bare true rest)
          else None
      | Single =>
          if Ascii.eqb c squote then sh_words Bare true rest
          else push c (sh_words Single true rest)
      | Double =>
          if Ascii.eqb c dquote then sh_words Bare true rest
          else if Ascii.eqb c backslash || Ascii.eqb c "$" || Ascii.eqb c "`"
               then None
               else push c (sh_words Double true rest)
      end
  end.

(** The arguments of the agent process that the flat run command
    spells out. *)
Definition model_words (self : CodeEditingAgent) : list string :=
  match self_model_name self with
  | JStr m => if String.eqb m "" then [] else ["-m"; m]
  | _ => []
  end.

(** [s] put in front of the word being read. *)
Definition pushs (s : string) (words : option (list string))
  : option (list string) :=
  match words with
  | Some (w :: ws) => Some ((s ++ w) :: ws)
  | _ => None
  end.

(** [self.model_name] is a text or false in a boolean context. *)
Definition model_is_text (self : CodeEditingAgent) : Prop :=
  truthy (self_model_name self) = false
  \/ exists m, self_model_name self = JStr m.

(** The [FRIENDLI_TOKEN] entry of the run environment: present when
    the variable is set to a non-empty value. *)
Definition token_entry (environ : Environ) : list (string * string) :=
  match environ "FRIENDLI_TOKEN" with
  | Some v => if String.eqb v "" then [] else [("FRIENDLI_TOKEN", v)]
  | None => []
  end.

Definition sample_environ : Environ :=
  fun k =>
    if String.eqb k "FRIENDLI_TOKEN" then Some "tok-1"
    else if String.eqb k "AGENT_ENABLE_THINKING" then Some "TRUE"
    else None.

Definition unsafe_instruction : string :=
  "fix Bob's bug; rm -rf $HOME".

(** A line on which the reading loop raises. *)
Definition aborting (l : LogLine) : bool :=
  match l with
  | AbortingLine _ => true
  | _ => false
  end.

(** An assistant event with blocks of every kind: a text, an object
    tagged [text], two blocks tagged [tool_use] and a number. *)
Definition ev_mixed_blocks (tool_result : json) : list (string * json) :=
  [("type", JStr "assistant");
   ("message",
    JObj [("content",
           JArr [JStr "Listing. ";
                 JObj [("type", JStr "text"); ("text", JStr "hi")];
                 tool_use_block "t1";
                 JObj [("type", JStr "tool_use"); ("id", JStr "t2");
                       ("name", JStr "read_file");
                       ("input", JObj [("path", JStr "a.txt")])];
                 JInt 7])]);
   ("toolUseResult", tool_result)].

(* ================================================================= *)
(** * Properties *)

Lemma py_eq_str (v : json) (s : string) :
  py_eq v (JStr s) = true <-> v = JStr s.
Proof.
  destruct v as [ | b | z | s' | l | kvs ]; simpl.
  - split; discriminate.
  - split; discriminate.
  - split; discriminate.
  - rewrite String.eqb_eq. split; intros H.
    + now subst.
    + now injection H.
  - split; discriminate.
  - split; discriminate.
Qed.

(* ================================================================= *)
(** ** Facts about the result monad and the loop *)

Lemma bind_Ret {A B} (m : result A) (k : A -> result B) (b : B) :
  bind m k = Ret b -> exists a, m = Ret a /\ k a = Ret b.
Proof.
  destruct m as [e | a]; simpl; intros H.
  - discriminate H.
  - exists a. split; [reflexivity | exact H].
Qed.

(** A loop that ends has met dicts only. *)
Lemma handle_event_dict enc self st e st' :
  handle_event enc self st e = Ret st' -> is_dict e = true.
Proof.
  destruct st as [steps n].
  destruct e; try reflexivity; destruct enc; simpl; discriminate.
Qed.

(* ================================================================= *)
(** ** Facts about the Tool Correlator *)

Section Correlator.

Variables call_id output : json.

Lemma add_result_spec step r :
  add_result step r =
  with_observation step (mkObservation (existing_results step ++ [r])).
Proof.
  unfold add_result, with_observation, existing_results.
  destruct (observation step); reflexivity.
Qed.

Lemma scan_reversed_no_match rsteps :
  (forall s, In s rsteps -> matching call_id s = false) ->
  scan_reversed rsteps call_id output = rsteps.
Proof.
  induction rsteps as [| s rest IH]; intros H; simpl.
  - reflexivity.
  - rewrite (H s (or_introl eq_refl)). f_equal.
    apply IH. intros s' Hin. apply H. right. exact Hin.
Qed.

Lemma scan_reversed_match newer step older :
  (forall s, In s newer -> matching call_id s = false) ->
  matching call_id step = true ->
  scan_reversed (newer ++ step :: older) call_id output =
  (newer ++ add_result step (mkObservationResult call_id output) :: older)%list.
Proof.
  induction newer as [| s rest IH]; intros Hnone Hstep; simpl.
  - rewrite Hstep. reflexivity.
  - rewrite (Hnone s (or_introl eq_refl)). f_equal.
    apply IH; [| exact Hstep]. intros s' Hin. apply Hnone. right. exact Hin.
Qed.

Lemma correlate_no_match steps :
  (forall s, In s steps -> matching call_id s = false) ->
  correlate steps call_id output = steps.
Proof.
  intros H. unfold correlate. rewrite scan_reversed_no_match.
  - apply rev_involutive.
  - intros s Hin. apply H. apply in_rev. exact Hin.
Qed.

Lemma correlate_match before step after :
  matching call_id step = true ->
  (forall s, In s after -> matching call_id s = false) ->
  correlate (before ++ step :: after) call_id output =
  (before ++ add_result step (mkObservationResult call_id output) :: after)%list.
Proof.
  intros Hstep Hnone. unfold correlate.
  rewrite rev_app_distr. simpl. rewrite <- app_assoc. simpl.
  rewrite scan_reversed_match.
  - rewrite rev_app_distr. simpl. rewrite rev_involutive.
    rewrite <- app_assoc. simpl. rewrite rev_involutive. reflexivity.
  - intros s Hin. apply Hnone. apply in_rev. exact Hin.
  - exact Hstep.
Qed.

(** The latest matching Step, when there is one. *)
Lemma last_match (P : Step -> bool) steps :
  existsb P steps = true ->
  exists before step after,
    steps = (before ++ step :: after)%list /\ P step = true
    /\ forall s, In s after -> P s = false.
Proof.
  induction steps as [| s rest IH]; simpl; intros H.
  - discriminate H.
  - destruct (existsb P rest) eqn:Hrest.
    + destruct (IH eq_refl) as [before [step [after [-> [Hp Hafter]]]]].
      exists (s :: before), step, after. repeat split; assumption.
    + rewrite orb_false_r in H.
      exists [], s, rest. repeat split; try assumption.
      intros s' Hin. destruct (P s') eqn:Hs'; [| reflexivity].
      rewrite <- Hrest. symmetry. apply existsb_exists. exists s'. auto.
Qed.

(** The correlator changes observations only. *)
Lemma add_result_frame step r :
  step_id (add_result step r) = step_id step
  /\ source (add_result step r) = source step
  /\ tool_calls (add_result step r) = tool_calls step
  /\ metrics (add_result step r) = metrics step.
Proof. unfold add_result. destruct (observation step); simpl; auto. Qed.

Lemma scan_reversed_frame {A} (f : Step -> A) rsteps :
  (forall s r, f (add_result s r) = f s) ->
  map f (scan_reversed rsteps call_id output) = map f rsteps.
Proof.
  intros Hf. induction rsteps as [| s rest IH]; simpl.
  - reflexivity.
  - destruct (matching call_id s); simpl.
    + rewrite Hf. reflexivity.
    + rewrite IH. reflexivity.
Qed.

Lemma correlate_frame {A} (f : Step -> A) steps :
  (forall s r, f (add_result s r) = f s) ->
  map f (correlate steps call_id output) = map f steps.
Proof.
  intros Hf. unfold correlate.
  rewrite map_rev, scan_reversed_frame, <- map_rev, rev_involutive; auto.
Qed.

Lemma correlate_length steps :
  List.length (correlate steps call_id output) = List.length steps.
Proof.
  rewrite <- (length_map step_id), correlate_frame, length_map.
  - reflexivity.
  - intros s r. apply add_result_frame.
Qed.

Lemma correlate_Forall (P : Step -> Prop) steps :
  (forall s r, P s -> P (add_result s r)) ->
  Forall P steps -> Forall P (correlate steps call_id output).
Proof.
  intros HP H. unfold correlate. apply Forall_rev.
  apply Forall_rev in H. induction H as [| s rest Hs Hrest IH]; simpl.
  - constructor.
  - destruct (matching call_id s); constructor; auto.
Qed.

End Correlator.

(* ================================================================= *)
(** ** The flat handler, branch by branch *)

Section FlatBranches.

Variable self : CodeEditingAgent.
Variables (steps : list Step) (n : nat) (kvs : list (string * json)).

Let event_type := lookup kvs "type" JNull.

Lemma flat_user :
  py_eq event_type (JStr "user") = true ->
  Flat.handle_event self (steps, n) (JObj kvs) =
  Ret ((steps ++ [mkStep (S n) (lookup kvs "timestamp" JNull) SrcUser
                         (lookup kvs "content" (JStr ""))
                         JNull JNull None None None])%list, S n).
Proof.
  intros H. cbv beta iota delta [Flat.handle_event get bind].
  fold event_type. rewrite H. reflexivity.
Qed.

Lemma flat_tool_call :
  py_eq event_type (JStr "tool_call") = true ->
  Flat.handle_event self (steps, n) (JObj kvs) =
  Ret ((steps ++ [mkStep (S n) (lookup kvs "timestamp" JNull) SrcAgent
                         (JStr "Tool execution")
                         (py_or (lookup kvs "model" JNull) (self_model_name self))
                         (lookup kvs "reasoning_content" JNull)
                         (Some [mkToolCall (lookup kvs "tool_call_id" (JStr ""))
                                           (lookup kvs "tool_name" (JStr ""))
                                           (lookup kvs "tool_input" (JObj []))])
                         None None])%list, S n).
Proof.
  intros H. cbv beta iota delta [Flat.handle_event get bind].
  fold event_type. apply py_eq_str in H. rewrite H. reflexivity.
Qed.

Lemma flat_tool_result :
  py_eq event_type (JStr "tool_result") = true ->
  Flat.handle_event self (steps, n) (JObj kvs) =
  Ret (if truthy (lookup kvs "tool_call_id" JNull) && nonempty steps
       then correlate steps (lookup kvs "tool_call_id" JNull)
              (Flat.combined_output (lookup kvs "output" (JStr ""))
                                    (lookup kvs "error" JNull))
       else steps, n).
Proof.
  intros H. cbv beta iota delta [Flat.handle_event get bind].
  fold event_type. apply py_eq_str in H. rewrite H.
  cbv beta iota delta [py_eq String.eqb Ascii.eqb Bool.eqb].
  destruct (truthy (lookup kvs "tool_call_id" JNull) && nonempty steps);
    reflexivity.
Qed.

Lemma flat_assistant :
  py_eq event_type (JStr "assistant") = true ->
  Flat.handle_event self (steps, n) (JObj kvs) =
  Ret ((steps ++ [mkStep (S n) (lookup kvs "timestamp" JNull) SrcAgent
                         (lookup kvs "content" (JStr ""))
                         (py_or (lookup kvs "model" JNull) (self_model_name self))
                         (lookup kvs "reasoning_content" JNull)
                         None None None])%list, S n).
Proof.
  intros H. cbv beta iota delta [Flat.handle_event get bind].
  fold event_type. apply py_eq_str in H. rewrite H. reflexivity.
Qed.

Lemma flat_unknown :
  Flat.creates_step (JObj kvs) = false ->
  py_eq event_type (JStr "tool_result") = false ->
  Flat.handle_event self (steps, n) (JObj kvs) = Ret (steps, n).
Proof.
  unfold Flat.creates_step, event_type_of. fold event_type.
  intros Hc Hr.
  apply orb_false_elim in Hc. destruct Hc as [Hc Ha].
  apply orb_false_elim in Hc. destruct Hc as [Hu Hc].
  cbv beta iota delta [Flat.handle_event get bind].
  fold event_type. rewrite Hu, Hc, Hr, Ha. reflexivity.
Qed.

(** The type of an event decides whether it opens a Step. *)
Lemma flat_creates_step_cases :
  (Flat.creates_step (JObj kvs) = true /\
   (py_eq event_type (JStr "user") = true
    \/ py_eq event_type (JStr "tool_call") = true
    \/ py_eq event_type (JStr "assistant") = true))
  \/ (Flat.creates_step (JObj kvs) = false /\
      (py_eq event_type (JStr "tool_result") = true
       \/ py_eq event_type (JStr "tool_result") = false)).
Proof.
  unfold Flat.creates_step, event_type_of. fold event_type.
  destruct (py_eq event_type (JStr "user")); simpl; [left; auto |].
  destruct (py_eq event_type (JStr "tool_call")); simpl; [left; auto |].
  destruct (py_eq event_type (JStr "assistant")); simpl; [left; auto |].
  right. split; [reflexivity |].
  destruct (py_eq event_type (JStr "tool_result")); auto.
Qed.

End FlatBranches.

(* ================================================================= *)
(** ** The content-block handler, branch by branch *)

Lemma append_empty_r (s : string) : s ++ "" = s.
Proof. induction s as [| c s IH]; simpl; [| rewrite IH]; reflexivity. Qed.

Lemma append_assoc (a b c : string) : (a ++ b) ++ c = a ++ (b ++ c).
Proof. induction a as [| x a IH]; simpl; [| rewrite IH]; reflexivity. Qed.

(** The test and the constructor of the block loop against the tagged
    blocks and their ToolCalls. *)
Lemma is_tool_use_tagged block :
  Blocks.is_tool_use block = tagged_tool_use block.
Proof.
  destruct block as [ | | | | | kvs]; try reflexivity.
  unfold Blocks.is_tool_use, tagged_tool_use, lookup.
  destruct (assoc "type" kvs) as [[ | | | tag | | ] |]; reflexivity.
Qed.

Lemma tool_call_of_block_call block :
  Blocks.tool_call_of block = block_call block.
Proof. destruct block; reflexivity. Qed.

Lemma scan_blocks_spec blocks : forall tcs txt,
  Blocks.scan_blocks blocks tcs txt =
  ((tcs ++ extracted_calls blocks)%list, txt ++ other_text blocks).
Proof.
  induction blocks as [| b rest IH]; intros tcs txt.
  - simpl. rewrite app_nil_r, append_empty_r. reflexivity.
  - cbn [Blocks.scan_blocks extracted_calls other_text].
    rewrite is_tool_use_tagged, tool_call_of_block_call.
    destruct (tagged_tool_use b); rewrite IH.
    + rewrite <- app_assoc. reflexivity.
    + rewrite append_assoc. reflexivity.
Qed.

Section BlockBranches.

Variable self : CodeEditingAgent.
Variables (steps : list Step) (n : nat) (kvs : list (string * json)).

Let event_type := lookup kvs "type" JNull.

Lemma blocks_user st' :
  py_eq event_type (JStr "user") = true ->
  Blocks.handle_event self (steps, n) (JObj kvs) = Ret st' ->
  exists mkvs,
    lookup kvs "message" (JObj []) = JObj mkvs
    /\ st' =
       ((steps ++ [mkStep (S n) (lookup kvs "timestamp" JNull) SrcUser
                          (JStr (py_str (lookup mkvs "content" (JStr ""))))
                          JNull JNull None None None])%list, S n).
Proof.
  intros Ht H. cbv beta iota delta [Blocks.handle_event get bind] in H.
  fold event_type in H. rewrite Ht in H.
  destruct (lookup kvs "message" (JObj [])) as [ | | | | | mkvs];
    try discriminate H.
  exists mkvs. split; [reflexivity |].
  cbv zeta in H. injection H as <-. reflexivity.
Qed.

(** The assistant branch raises exactly when [usage] or, with a
    ToolCall extracted, [toolUseResult] is true in a boolean context
    without being a dict. *)
Lemma blocks_assistant_eq mkvs :
  py_eq event_type (JStr "assistant") = true ->
  lookup kvs "message" (JObj []) = JObj mkvs ->
  Blocks.handle_event self (steps, n) (JObj kvs) =
  if gets_usage (lookup mkvs "usage" (JObj []))
     && gets_stdout (fst (calls_and_text (lookup mkvs "content" (JStr ""))))
                    (lookup kvs "toolUseResult" JNull)
  then
    Ret ((steps ++
          [mkStep (S n) (lookup kvs "timestamp" JNull) SrcAgent
             (py_or (JStr (snd (calls_and_text (lookup mkvs "content" (JStr "")))))
                    (JStr "Tool execution"))
             (py_or (lookup mkvs "model" JNull) (self_model_name self))
             JNull
             (if nonempty (fst (calls_and_text (lookup mkvs "content" (JStr ""))))
              then Some (fst (calls_and_text (lookup mkvs "content" (JStr ""))))
              else None)
             (embedded_observation
                (fst (calls_and_text (lookup mkvs "content" (JStr ""))))
                (lookup kvs "toolUseResult" JNull))
             (usage_metrics (lookup mkvs "usage" (JObj [])))])%list, S n)
  else Raise AttributeError.
Proof.
  intros Ht Hm. cbv beta iota delta [Blocks.handle_event get bind].
  fold event_type. apply py_eq_str in Ht. rewrite Ht, Hm.
  cbv beta iota delta [py_eq String.eqb Ascii.eqb Bool.eqb].
  cbv zeta.
  assert (Hscan :
    match lookup mkvs "content" (JStr "") with
    | JArr blocks => Blocks.scan_blocks blocks [] ""
    | _ => ([], py_str (lookup mkvs "content" (JStr "")))
    end = calls_and_text (lookup mkvs "content" (JStr ""))).
  { unfold calls_and_text.
    destruct (lookup mkvs "content" (JStr "")); try reflexivity.
    apply scan_blocks_spec. }
  rewrite Hscan. clear Hscan.
  destruct (calls_and_text (lookup mkvs "content" (JStr ""))) as [tcs text].
  simpl fst. simpl snd.
  unfold usage_metrics, embedded_observation, gets_usage, gets_stdout.
  destruct (truthy (lookup mkvs "usage" (JObj []))) eqn:Husage;
    destruct (truthy (lookup kvs "toolUseResult" JNull)) eqn:Htur;
    destruct tcs as [| first more];
    destruct (lookup mkvs "usage" (JObj [])) as [ | | | | | ukvs];
    destruct (lookup kvs "toolUseResult" JNull) as [ | | | | | rkvs];
    try discriminate Husage; try discriminate Htur; reflexivity.
Qed.

Lemma blocks_assistant st' :
  py_eq event_type (JStr "assistant") = true ->
  Blocks.handle_event self (steps, n) (JObj kvs) = Ret st' ->
  exists mkvs,
    lookup kvs "message" (JObj []) = JObj mkvs
    /\ st' =
       ((steps ++
         [mkStep (S n) (lookup kvs "timestamp" JNull) SrcAgent
            (py_or (JStr (snd (calls_and_text (lookup mkvs "content" (JStr "")))))
                   (JStr "Tool execution"))
            (py_or (lookup mkvs "model" JNull) (self_model_name self))
            JNull
            (if nonempty (fst (calls_and_text (lookup mkvs "content" (JStr ""))))
             then Some (fst (calls_and_text (lookup mkvs "content" (JStr ""))))
             else None)
            (embedded_observation
               (fst (calls_and_text (lookup mkvs "content" (JStr ""))))
               (lookup kvs "toolUseResult" JNull))
            (usage_metrics (lookup mkvs "usage" (JObj [])))])%list, S n).
Proof.
  intros Ht H.
  destruct (lookup kvs "message" (JObj [])) as [ | | | | | mkvs] eqn:Hm;
    try (cbv beta iota delta [Blocks.handle_event get bind] in H;
         fold event_type in H; apply py_eq_str in Ht; rewrite Ht, Hm in H;
         discriminate H).
  exists mkvs. split; [reflexivity |].
  rewrite (blocks_assistant_eq mkvs Ht Hm) in H.
  destruct (gets_usage (lookup mkvs "usage" (JObj []))
            && gets_stdout (fst (calls_and_text (lookup mkvs "content" (JStr ""))))
                           (lookup kvs "toolUseResult" JNull));
    [| discriminate H].
  injection H as <-. reflexivity.
Qed.

Lemma blocks_unknown :
  Blocks.creates_step (JObj kvs) = false ->
  Blocks.handle_event self (steps, n) (JObj kvs) = Ret (steps, n).
Proof.
  unfold Blocks.creates_step, event_type_of. fold event_type.
  intros Hc. apply orb_false_elim in Hc. destruct Hc as [Hu Ha].
  cbv beta iota delta [Blocks.handle_event get bind].
  fold event_type. rewrite Hu, Ha. reflexivity.
Qed.

Lemma blocks_creates_step_cases :
  (Blocks.creates_step (JObj kvs) = true /\
   (py_eq event_type (JStr "user") = true
    \/ py_eq event_type (JStr "assistant") = true))
  \/ Blocks.creates_step (JObj kvs) = false.
Proof.
  unfold Blocks.creates_step, event_type_of. fold event_type.
  destruct (py_eq event_type (JStr "user")); simpl; [left; auto |].
  destruct (py_eq event_type (JStr "assistant")); simpl; [left; auto |].
  right. reflexivity.
Qed.

End BlockBranches.

(* ================================================================= *)
(** ** One iteration of the loop *)

(** An iteration that does not raise either appends one Step numbered
    [step_id + 1], or leaves the counter alone and changes at most one
    observation. *)
Lemma handle_event_step enc self steps n e st' :
  handle_event enc self (steps, n) e = Ret st' ->
  (creates_step enc e = true /\
   exists s, st' = ((steps ++ [s])%list, S n) /\ step_id s = S n
             /\ well_formed s
             /\ (enc = FlatEncoding -> metrics s = None))
  \/ (creates_step enc e = false /\ snd st' = n /\
      (fst st' = steps
       \/ exists call_id output, fst st' = correlate steps call_id output)).
Proof.
  intros H. pose proof (handle_event_dict _ _ _ _ _ H) as Hd.
  destruct e as [ | | | | | kvs]; try discriminate Hd. clear Hd.
  destruct enc; unfold handle_event, creates_step in *.
  - destruct (flat_creates_step_cases kvs) as [[Hc Ht] | [Hc Ht]]; rewrite Hc.
    + left. split; [reflexivity |].
      destruct Ht as [Ht | [Ht | Ht]].
      * rewrite (flat_user _ _ _ _ Ht) in H. injection H as <-.
        eexists. split; [reflexivity |]. simpl. unfold well_formed. simpl. auto.
      * rewrite (flat_tool_call _ _ _ _ Ht) in H. injection H as <-.
        eexists. split; [reflexivity |]. simpl. unfold well_formed. simpl.
        repeat split; auto. discriminate.
      * rewrite (flat_assistant _ _ _ _ Ht) in H. injection H as <-.
        eexists. split; [reflexivity |]. simpl. unfold well_formed. simpl. auto.
    + right. split; [reflexivity |].
      destruct Ht as [Ht | Ht].
      * rewrite (flat_tool_result _ _ _ _ Ht) in H. injection H as <-. simpl.
        split; [reflexivity |].
        destruct (truthy (lookup kvs "tool_call_id" JNull) && nonempty steps).
        -- right. eexists. eexists. reflexivity.
        -- left. reflexivity.
      * rewrite (flat_unknown _ _ _ _ Hc Ht) in H. injection H as <-. simpl. auto.
  - destruct (blocks_creates_step_cases kvs) as [[Hc Ht] | Hc]; rewrite Hc.
    + left. split; [reflexivity |].
      destruct Ht as [Ht | Ht].
      * destruct (blocks_user _ _ _ _ _ Ht H) as [mkvs [_ ->]].
        eexists. split; [reflexivity |]. simpl. unfold well_formed. simpl.
        repeat split; auto.
      * destruct (blocks_assistant _ _ _ _ _ Ht H) as [mkvs [_ ->]].
        eexists. split; [reflexivity |]. simpl. unfold well_formed. simpl.
        repeat split; try discriminate.
        destruct (fst (calls_and_text (lookup mkvs "content" (JStr ""))));
          simpl; [exact I | split; [reflexivity | discriminate]].
    + right. split; [reflexivity |].
      rewrite (blocks_unknown _ _ _ _ Hc) in H. injection H as <-. simpl. auto.
Qed.

Lemma add_result_well_formed s r : well_formed s -> well_formed (add_result s r).
Proof.
  unfold well_formed. destruct (add_result_frame s r) as [_ [-> [-> _]]]. auto.
Qed.

(** The loop numbers the Steps [1, 2, ...] and counts the events that
    opened one. *)
Lemma for_each_ids enc self events : forall steps n st',
  for_each (handle_event enc self) events (steps, n) = Ret st' ->
  map step_id steps = seq 1 n ->
  map step_id (fst st') = seq 1 (snd st')
  /\ snd st' = (n + count_creating enc events)%nat.
Proof.
  unfold count_creating.
  induction events as [| e rest IH]; intros steps n st' Hrun Hids; simpl in Hrun.
  - injection Hrun as <-. simpl. split; [exact Hids | lia].
  - apply bind_Ret in Hrun. destruct Hrun as [[steps1 n1] [Hstep Hrest]].
    apply handle_event_step in Hstep. simpl.
    destruct Hstep as [[Hc [s [Hst [Hid _]]]] | [Hc [Hn Hsteps]]]; rewrite Hc.
    + injection Hst as -> ->.
      destruct (IH _ _ _ Hrest) as [H1 H2].
      * rewrite map_app, seq_S, Hids. simpl. rewrite Hid. reflexivity.
      * split; [exact H1 |]. rewrite H2. simpl. lia.
    + simpl in Hn, Hsteps. subst n1.
      apply (IH _ _ _ Hrest).
      destruct Hsteps as [-> | [call_id [output ->]]]; [exact Hids |].
      rewrite correlate_frame; [exact Hids |].
      intros s r. apply add_result_frame.
Qed.

(** Every Step a loop builds satisfies a property that each new Step
    has and that attaching a result keeps. *)
Lemma for_each_Forall (P : Step -> Prop) enc self :
  (forall s r, P s -> P (add_result s r)) ->
  (forall steps n e s,
     handle_event enc self (steps, n) e = Ret ((steps ++ [s])%list, S n) ->
     creates_step enc e = true -> P s) ->
  forall events steps n st',
    for_each (handle_event enc self) events (steps, n) = Ret st' ->
    Forall P steps -> Forall P (fst st').
Proof.
  intros Hadd Hnew events.
  induction events as [| e rest IH]; intros steps n st' Hrun HP; simpl in Hrun.
  - injection Hrun as <-. exact HP.
  - apply bind_Ret in Hrun. destruct Hrun as [[steps1 n1] [Hstep Hrest]].
    pose proof Hstep as Hstep'. apply handle_event_step in Hstep'.
    apply (IH _ _ _ Hrest).
    destruct Hstep' as [[Hc [s [Hst _]]] | [Hc [Hn Hsteps]]].
    + injection Hst as -> ->. apply Forall_app. split; [exact HP |].
      constructor; [| constructor]. eapply Hnew; eassumption.
    + simpl in Hsteps.
      destruct Hsteps as [-> | [call_id [output ->]]]; [exact HP |].
      apply correlate_Forall; assumption.
Qed.

(** Reading ends with the decoded values or with the exception of an
    aborting line. *)
Lemma read_log_cases log :
  read_log log = Ret (read_events log)
  \/ exists why, read_log log = Raise (Uncaught why).
Proof.
  induction log as [| l rest [IH | [why IH]]]; simpl.
  - left. reflexivity.
  - destruct l; simpl; try rewrite IH; simpl; eauto.
  - destruct l; simpl; try rewrite IH; simpl; eauto.
Qed.


(** A conversion is the body of the function after the reading loop,
    on the decoded events, or the exception of the reading loop. *)
Lemma convert_after_read enc self version log :
  read_log log = Ret (read_events log) ->
  convert enc self version log
  = match read_events log with
    | [] => Ret None
    | first :: _ =>
        session_id <- get first "sessionId" (JStr "unknown") ;;
        st <- for_each (handle_event enc self) (read_events log) initial ;;
        assemble Flat.name
          (match enc with FlatEncoding => Flat.version | _ => version end)
          (self_model_name self) session_id (fst st)
    end.
Proof.
  intros Hread. destruct enc; simpl;
    unfold Flat._convert_events_to_trajectory,
           Blocks._convert_events_to_trajectory;
    rewrite Hread; reflexivity.
Qed.

Lemma convert_read_raises enc self version log why :
  read_log log = Raise (Uncaught why) ->
  convert enc self version log = Raise (Uncaught why).
Proof.
  intros Hread. destruct enc; simpl;
    unfold Flat._convert_events_to_trajectory,
           Blocks._convert_events_to_trajectory;
    rewrite Hread; reflexivity.
Qed.

Lemma convert_read enc self version log r :
  convert enc self version log = Ret r ->
  read_log log = Ret (read_events log).
Proof.
  intros H. destruct (read_log_cases log) as [Hr | [why Hr]]; [exact Hr |].
  rewrite (convert_read_raises enc self version log why Hr) in H.
  discriminate H.
Qed.

(** What [convert] returns when it returns a trajectory. *)
Lemma convert_Some enc self version log t :
  convert enc self version log = Ret (Some t) ->
  exists n,
    for_each (handle_event enc self) (read_events log) initial = Ret (steps t, n)
    /\ steps t <> []
    /\ exists total_prompt total_completion total_cached,
         py_sum (selected prompt_tokens (steps t)) = Ret total_prompt
         /\ py_sum (selected completion_tokens (steps t)) = Ret total_completion
         /\ py_sum (selected cached_tokens (steps t)) = Ret total_cached
         /\ final_metrics t =
            Some (mkFinalMetrics (or_None total_prompt) (or_None total_completion)
                                 (or_None total_cached) (List.length (steps t))).
Proof.
  intros H.
  assert (Hgen : exists first rest session_id,
             read_events log = first :: rest /\
             (st <- for_each (handle_event enc self) (read_events log) initial ;;
              assemble Flat.name
                (match enc with FlatEncoding => Flat.version | _ => version end)
                (self_model_name self) session_id (fst st)) = Ret (Some t)).
  { pose proof (convert_read _ _ _ _ _ H) as Hread.
    rewrite (convert_after_read _ _ _ _ Hread) in H.
    destruct (read_events log) as [| first rest]; try discriminate H.
    apply bind_Ret in H. destruct H as [sid [_ H]].
    exists first, rest, sid. split; [reflexivity | exact H]. }
  destruct Hgen as [first [rest [sid [_ Hrun]]]].
  apply bind_Ret in Hrun. destruct Hrun as [[stps n] [Hloop Hasm]].
  simpl in Hasm. unfold assemble in Hasm.
  destruct stps as [| s0 more]; simpl in Hasm; [discriminate Hasm |].
  apply bind_Ret in Hasm. destruct Hasm as [tp [Hp Hasm]].
  apply bind_Ret in Hasm. destruct Hasm as [tc [Hc Hasm]].
  apply bind_Ret in Hasm. destruct Hasm as [tk [Hk Hasm]].
  injection Hasm as <-. simpl.
  exists n. split; [exact Hloop |]. split; [discriminate |].
  exists tp, tc, tk. repeat split; assumption.
Qed.

Lemma has_call_matching call_id s :
  well_formed s -> matching call_id s = has_call call_id s.
Proof.
  unfold well_formed, matching, has_call.
  destruct (tool_calls s) as [tcs |].
  - intros [-> Hne]. destruct tcs; [contradiction | reflexivity].
  - intros _. apply andb_false_r.
Qed.

Lemma no_call_no_match call_id s :
  has_call call_id s = false -> matching call_id s = false.
Proof.
  unfold matching, has_call. destruct (tool_calls s) as [tcs |].
  - intros ->. rewrite !andb_false_r. reflexivity.
  - intros _. apply andb_false_r.
Qed.

(** Steps built by the flat loop are well formed. *)
Lemma new_step_well_formed enc self steps n e s :
  handle_event enc self (steps, n) e = Ret ((steps ++ [s])%list, S n) ->
  well_formed s.
Proof.
  intros Hs. apply handle_event_step in Hs.
  destruct Hs as [[_ [s' [Heq [_ [Hwf _]]]]] | [_ [Hn _]]].
  - injection Heq as Heq. apply app_inj_tail in Heq. destruct Heq as [_ ->].
    exact Hwf.
  - simpl in Hn. lia.
Qed.

Lemma flat_steps_well_formed self events steps n :
  for_each (Flat.handle_event self) events initial = Ret (steps, n) ->
  Forall well_formed steps.
Proof.
  intros H.
  exact (for_each_Forall well_formed FlatEncoding self
           add_result_well_formed
           (fun steps0 n0 e s Hs _ => new_step_well_formed _ _ _ _ _ _ Hs)
           events [] 0%nat (steps, n) H (Forall_nil _)).
Qed.

(* ================================================================= *)
(** ** Step identifiers *)

(** C1: when the conversion of a log produces a trajectory, the
    [step_id]s of its Steps are exactly [1, 2, ..., N] in this order, N
    being the number of events that open a Step ([user], [assistant] and,
    in the flat encoding, [tool_call]); an event that opens no Step (a
    [tool_result], an unknown type) leaves the counter and the
    identifiers as they were. *)
Theorem step_ids_are_one_to_N enc self version log t :
  convert enc self version log = Ret (Some t) ->
  map step_id (steps t) = seq 1 (count_creating enc (read_events log))
  /\ forall steps n e st',
       creates_step enc e = false ->
       handle_event enc self (steps, n) e = Ret st' ->
       snd st' = n /\ map step_id (fst st') = map step_id steps.
Proof.
  intros H. split.
  - apply convert_Some in H. destruct H as [n [Hrun _]].
    apply for_each_ids in Hrun; [| reflexivity].
    simpl in Hrun. destruct Hrun as [Hids ->]. exact Hids.
  - intros stps n e st' Hc Hstep. apply handle_event_step in Hstep.
    destruct Hstep as [[Hc' _] | [_ [Hn Hsteps]]]; [congruence |].
    split; [exact Hn |].
    destruct Hsteps as [-> | [call_id [output ->]]]; [reflexivity |].
    apply correlate_frame. intros s r. apply add_result_frame.
Qed.

(* ================================================================= *)
(** ** Tool results *)

(** C3: a [tool_result] event whose call id matches no ToolCall of any
    Step built so far is dropped: the handler returns normally with the
    Step sequence and the counter unchanged. *)
Theorem unmatched_tool_result_is_dropped self steps n kvs :
  py_eq (lookup kvs "type" JNull) (JStr "tool_result") = true ->
  (forall s, In s steps -> has_call (lookup kvs "tool_call_id" JNull) s = false) ->
  Flat.handle_event self (steps, n) (JObj kvs) = Ret (steps, n).
Proof.
  intros Ht Hnone. rewrite (flat_tool_result _ _ _ _ Ht).
  destruct (truthy (lookup kvs "tool_call_id" JNull) && nonempty steps);
    [| reflexivity].
  rewrite correlate_no_match; [reflexivity |].
  intros s Hin. apply no_call_no_match. apply Hnone. exact Hin.
Qed.

(** A [tool_result] without a call id, or with an empty one, is
    dropped whatever the Steps hold. *)
Lemma falsy_call_id_is_dropped self steps n kvs :
  py_eq (lookup kvs "type" JNull) (JStr "tool_result") = true ->
  truthy (lookup kvs "tool_call_id" JNull) = false ->
  Flat.handle_event self (steps, n) (JObj kvs) = Ret (steps, n).
Proof.
  intros Ht Hid. rewrite (flat_tool_result _ _ _ _ Ht), Hid. reflexivity.
Qed.

(** C2, amended: a [tool_result] event whose call id is true in a
    boolean context (not absent, not empty) and matches a ToolCall of a
    Step built so far attaches one new ObservationResult, holding the
    call id and the combined text, to the latest agent Step with a
    matching ToolCall, after the results that Step already has; no
    other Step changes and no Step is created. *)
Theorem matched_tool_result_attaches self earlier steps n kvs :
  for_each (Flat.handle_event self) earlier initial = Ret (steps, n) ->
  py_eq (lookup kvs "type" JNull) (JStr "tool_result") = true ->
  truthy (lookup kvs "tool_call_id" JNull) = true ->
  existsb (has_call (lookup kvs "tool_call_id" JNull)) steps = true ->
  exists steps',
    Flat.handle_event self (steps, n) (JObj kvs) = Ret (steps', n)
    /\ attaches_to_latest steps (lookup kvs "tool_call_id" JNull)
         (Flat.combined_output (lookup kvs "output" (JStr ""))
                               (lookup kvs "error" JNull))
         steps'
    /\ List.length steps' = List.length steps.
Proof.
  intros Hrun Ht Hid Hex.
  apply flat_steps_well_formed in Hrun. rewrite Forall_forall in Hrun.
  rewrite (flat_tool_result _ _ _ _ Ht), Hid.
  assert (Hne : nonempty steps = true) by (destruct steps; [discriminate Hex | reflexivity]).
  rewrite Hne. simpl andb.
  eexists. split; [reflexivity |]. split; [| apply correlate_length].
  destruct (last_match _ _ Hex) as [before [step [after [-> [Hstep Hafter]]]]].
  assert (Hwf : well_formed step) by (apply Hrun, in_elt).
  exists before, step, after.
  split; [reflexivity |]. split.
  { unfold well_formed, has_call in *.
    destruct (tool_calls step); [apply Hwf | discriminate Hstep]. }
  split; [exact Hstep |]. split; [exact Hafter |].
  rewrite correlate_match.
  - rewrite add_result_spec. reflexivity.
  - rewrite has_call_matching; assumption.
  - intros s Hin. apply no_call_no_match. apply Hafter. exact Hin.
Qed.

Lemma step_ids_are_one_to_N_witness :
  exists t,
    convert FlatEncoding sample_agent JNull sample_log = Ret (Some t)
    /\ map step_id (steps t) = [1; 2]%nat.
Proof.
  eexists. split.
  - vm_compute. reflexivity.
  - apply (step_ids_are_one_to_N FlatEncoding sample_agent JNull sample_log).
    vm_compute. reflexivity.
Defined.

Lemma unmatched_tool_result_is_dropped_witness :
  Flat.handle_event sample_agent ([call_step 1 "abc"], 1%nat)
    (JObj (ev_result "zzz" "hello"))
  = Ret ([call_step 1 "abc"], 1%nat).
Proof.
  apply unmatched_tool_result_is_dropped.
  - reflexivity.
  - intros s [<- | []]. reflexivity.
Defined.

Lemma matched_tool_result_attaches_witness :
  exists steps',
    Flat.handle_event sample_agent ([call_step 1 "abc"; call_step 2 "abc"], 2%nat)
      (JObj (ev_result_error "abc" "hello" "oops"))
    = Ret (steps', 2%nat)
    /\ attaches_to_latest [call_step 1 "abc"; call_step 2 "abc"] (JStr "abc")
         (JStr ("hello" ++ newline ++ "STDERR: oops")) steps'
    /\ List.length steps' = 2%nat.
Proof.
  apply (matched_tool_result_attaches sample_agent
           [ev_call "abc"; ev_call "abc"]
           [call_step 1 "abc"; call_step 2 "abc"] 2
           (ev_result_error "abc" "hello" "oops"));
    vm_compute; reflexivity.
Defined.

(** C2 as stated fails when the matching id is the empty string: a
    [tool_call] event with [tool_call_id] [""] builds a Step whose
    ToolCall the later [tool_result] with the same id matches, but the
    guard [if tool_call_id and steps] skips the search and nothing is
    attached. *)
Lemma empty_call_id_result_is_not_attached :
  for_each (Flat.handle_event sample_agent) [ev_call ""] initial
  = Ret ([call_step 1 ""], 1%nat)
  /\ existsb (has_call (JStr "")) [call_step 1 ""] = true
  /\ Flat.handle_event sample_agent ([call_step 1 ""], 1%nat)
       (JObj (ev_result "" "hello"))
     = Ret ([call_step 1 ""], 1%nat)
  /\ ~ attaches_to_latest [call_step 1 ""] (JStr "") (JStr "hello")
         [call_step 1 ""].
Proof.
  split; [reflexivity |]. split; [reflexivity |]. split; [reflexivity |].
  intros [before [step [after [Heq [_ [_ [_ Heq']]]]]]].
  destruct before as [| b before].
  - simpl in Heq, Heq'. injection Heq as <- <-.
    discriminate Heq'.
  - destruct before; discriminate Heq.
Qed.

(** C7, amended: the text a flat [tool_result] event hands to the
    correlator is the event's output text; when the event has an error
    that is true in a boolean context (a non-empty error text), the
    label [STDERR: ] and the error follow the output on a new line, and
    stand alone when the output is empty; an absent or empty error
    leaves the output as it is. *)
Theorem tool_result_text self steps n kvs output :
  py_eq (lookup kvs "type" JNull) (JStr "tool_result") = true ->
  lookup kvs "output" (JStr "") = JStr output ->
  let call_id := lookup kvs "tool_call_id" JNull in
  let error := lookup kvs "error" JNull in
  let text :=
    if truthy error then
      if String.eqb output "" then "STDERR: " ++ py_str error
      else output ++ newline ++ "STDERR: " ++ py_str error
    else output in
  Flat.handle_event self (steps, n) (JObj kvs) =
  Ret (if truthy call_id && nonempty steps
       then correlate steps call_id (JStr text)
       else steps, n).
Proof.
  intros Ht Hout call_id error text.
  rewrite (flat_tool_result _ _ _ _ Ht), Hout.
  fold call_id. fold error.
  replace (Flat.combined_output (JStr output) error) with (JStr text);
    [reflexivity |].
  unfold Flat.combined_output, text. simpl truthy.
  destruct (truthy error); [| reflexivity].
  destruct (String.eqb output ""); reflexivity.
Qed.

Lemma tool_result_text_witness :
  Flat.handle_event sample_agent ([call_step 1 "abc"], 1%nat)
    (JObj (ev_result_error "abc" "" "oops"))
  = Ret ([with_observation (call_step 1 "abc")
            (mkObservation [mkObservationResult (JStr "abc")
                                                (JStr "STDERR: oops")])],
         1%nat).
Proof.
  apply (tool_result_text sample_agent [call_step 1 "abc"] 1
           (ev_result_error "abc" "" "oops") "");
    reflexivity.
Defined.

(** C7 as stated fails for an error text that is present and empty:
    [if error:] is false for it, so no [STDERR:] suffix is added. *)
Lemma empty_error_text_is_not_appended :
  assoc "error" (ev_result_error "abc" "hello" "") = Some (JStr "")
  /\ Flat.handle_event sample_agent ([call_step 1 "abc"], 1%nat)
       (JObj (ev_result_error "abc" "hello" ""))
     = Ret ([with_observation (call_step 1 "abc")
               (mkObservation [mkObservationResult (JStr "abc") (JStr "hello")])],
            1%nat)
  /\ JStr "hello" <> JStr ("hello" ++ newline ++ "STDERR: " ++ "").
Proof.
  split; [reflexivity |]. split; [reflexivity |]. discriminate.
Qed.

(* ================================================================= *)
(** ** Tool calls *)

(** C8: a flat [tool_call] event opens exactly one new Step: source
    agent, message [Tool execution], one ToolCall built from the event's
    [tool_call_id], [tool_name] and [tool_input], no Observation, and the
    run's configured model as [model_name] when the event has none. *)
Theorem tool_call_opens_one_step self steps n kvs :
  py_eq (lookup kvs "type" JNull) (JStr "tool_call") = true ->
  exists s,
    Flat.handle_event self (steps, n) (JObj kvs) = Ret ((steps ++ [s])%list, S n)
    /\ step_id s = S n
    /\ source s = SrcAgent
    /\ message s = JStr "Tool execution"
    /\ tool_calls s =
       Some [mkToolCall (lookup kvs "tool_call_id" (JStr ""))
                        (lookup kvs "tool_name" (JStr ""))
                        (lookup kvs "tool_input" (JObj []))]
    /\ observation s = None
    /\ reasoning_content s = lookup kvs "reasoning_content" JNull
    /\ (assoc "model" kvs = None -> model_name s = self_model_name self)
    /\ (truthy (lookup kvs "model" JNull) = true ->
        model_name s = lookup kvs "model" JNull).
Proof.
  intros Ht. rewrite (flat_tool_call _ _ _ _ Ht).
  eexists. split; [reflexivity |]. simpl.
  repeat split.
  - intros Hm. unfold lookup. rewrite Hm. reflexivity.
  - intros Hm. unfold py_or. rewrite Hm. reflexivity.
Qed.

Lemma tool_call_opens_one_step_witness :
  exists s,
    Flat.handle_event sample_agent ([], 0%nat) (ev_call "abc")
    = Ret ([s], 1%nat)
    /\ s = call_step 1 "abc".
Proof.
  destruct (tool_call_opens_one_step sample_agent [] 0
              [("type", JStr "tool_call"); ("tool_call_id", JStr "abc");
               ("tool_name", JStr "read_file");
               ("tool_input", JObj [("path", JStr "a.txt")])] eq_refl)
    as [s [Hs _]].
  exists s. split; [exact Hs |].
  vm_compute in Hs. injection Hs as <-. reflexivity.
Defined.

(* ================================================================= *)
(** ** Content-block assistant events *)

Lemma is_tool_use_spec block :
  Blocks.is_tool_use block = true <->
  exists kvs, block = JObj kvs /\ lookup kvs "type" JNull = JStr "tool_use".
Proof.
  unfold Blocks.is_tool_use. split.
  - destruct block as [ | | | | | kvs]; try discriminate.
    intros H. apply py_eq_str in H. exists kvs. auto.
  - intros [kvs [-> H]]. apply py_eq_str. exact H.
Qed.

Lemma tool_call_of_spec kvs :
  Blocks.tool_call_of (JObj kvs) =
  mkToolCall (lookup kvs "id" (JStr "")) (lookup kvs "name" (JStr ""))
             (lookup kvs "input" (JObj [])).
Proof. reflexivity. Qed.

(** C4, amended: a content-block assistant event whose [usage] and
    [toolUseResult], where consulted, are dicts opens one agent Step
    whose ToolCalls are the blocks tagged [tool_use], in order (id,
    name, input of each), and whose message is the concatenation of the
    stringified other blocks (the placeholder [Tool execution] when that
    is empty); when the event's [toolUseResult] is true in a boolean
    context (not absent, null or empty) and a ToolCall was extracted,
    the Step has an Observation of exactly one result, with the first
    ToolCall's id and the result's [stdout]; otherwise it has no
    Observation. *)
Theorem content_block_assistant_step self steps n kvs mkvs blocks :
  py_eq (lookup kvs "type" JNull) (JStr "assistant") = true ->
  lookup kvs "message" (JObj []) = JObj mkvs ->
  lookup mkvs "content" (JStr "") = JArr blocks ->
  gets_usage (lookup mkvs "usage" (JObj [])) = true ->
  gets_stdout (extracted_calls blocks) (lookup kvs "toolUseResult" JNull) = true ->
  let tool_result := lookup kvs "toolUseResult" JNull in
  exists s,
    Blocks.handle_event self (steps, n) (JObj kvs)
    = Ret ((steps ++ [s])%list, S n)
    /\ step_id s = S n
    /\ source s = SrcAgent
    /\ tool_calls s =
       (if nonempty (extracted_calls blocks)
        then Some (extracted_calls blocks) else None)
    /\ message s =
       JStr (if String.eqb (other_text blocks) "" then "Tool execution"
             else other_text blocks)
    /\ observation s =
       match extracted_calls blocks with
       | first :: _ =>
           if truthy tool_result
           then Some (mkObservation
                        [mkObservationResult (tool_call_id first)
                           (field tool_result "stdout" (JStr ""))])
           else None
       | [] => None
       end.
Proof.
  intros Ht Hm Hc Hu Hr tool_result.
  rewrite (blocks_assistant_eq _ _ _ _ _ Ht Hm), Hc.
  simpl calls_and_text. simpl fst. simpl snd.
  rewrite Hu, Hr. simpl andb.
  eexists. split; [reflexivity |]. simpl.
  repeat split.
  unfold py_or. simpl truthy.
  destruct (String.eqb (other_text blocks) ""); reflexivity.
Qed.

Lemma content_block_assistant_step_witness :
  exists s,
    Blocks.handle_event sample_agent ([], 0%nat)
      (JObj (ev_mixed_blocks (JObj [("stdout", JStr "a.txt")])))
    = Ret ([s], 1%nat)
    /\ message s = JStr "Listing. {'type': 'text', 'text': 'hi'}7"
    /\ tool_calls s
       = Some [mkToolCall (JStr "t1") (JStr "bash")
                          (JObj [("command", JStr "ls")]);
               mkToolCall (JStr "t2") (JStr "read_file")
                          (JObj [("path", JStr "a.txt")])]
    /\ observation s =
       Some (mkObservation [mkObservationResult (JStr "t1") (JStr "a.txt")]).
Proof.
  destruct (content_block_assistant_step sample_agent [] 0
              (ev_mixed_blocks (JObj [("stdout", JStr "a.txt")]))
              _ _ eq_refl eq_refl eq_refl eq_refl eq_refl)
    as [s [Hs [_ [_ [Htc [Hmsg Hobs]]]]]].
  exists s. split; [| split; [| split]].
  - exact Hs.
  - rewrite Hmsg. reflexivity.
  - rewrite Htc. reflexivity.
  - rewrite Hobs. reflexivity.
Defined.

(** C4 as stated fails for a [toolUseResult] that is present and
    empty: with a ToolCall extracted, [if tool_result and tool_calls]
    is false and the Step gets no Observation. *)
Lemma empty_toolUseResult_gives_no_observation :
  assoc "toolUseResult" (ev_block_assistant (JObj [])) = Some (JObj [])
  /\ exists s,
       Blocks.handle_event sample_agent ([], 0%nat)
         (JObj (ev_block_assistant (JObj [])))
       = Ret ([s], 1%nat)
       /\ option_map (map tool_call_id) (tool_calls s)
          = Some [JStr "t1"; JStr "t2"]
       /\ observation s = None.
Proof.
  split; [reflexivity |].
  eexists. split; [vm_compute; reflexivity |]. split; reflexivity.
Qed.

(* ================================================================= *)
(** ** Metrics totals *)

Lemma or_None_reported total : or_None total = reported total.
Proof.
  unfold or_None, reported.
  destruct (Z.eqb_spec total 0), (Z.eq_dec total 0); congruence.
Qed.

Lemma falsy_counts_zero v :
  truthy v = false ->
  match v with JInt z => z | JBool b => Z_of_bool b | _ => 0 end = 0.
Proof.
  destruct v as [ | b | z | | | ]; simpl; try reflexivity.
  - intros ->. reflexivity.
  - intros H. apply negb_false_iff in H. apply Z.eqb_eq in H. exact H.
Qed.

(** [sum] over the selected values, when it does not raise, is the sum
    over all Steps. *)
Lemma sum_from_exact f steps : forall acc total,
  sum_from acc (selected f steps) = Ret total ->
  total = acc + exact_sum f steps.
Proof.
  induction steps as [| s rest IH]; intros acc total H; simpl in *.
  - injection H as <-. lia.
  - unfold tokens. destruct (metrics s) as [m |].
    + destruct (truthy (f m)) eqn:Htruthy.
      * simpl in H. apply bind_Ret in H. destruct H as [acc' [Hadd Hrest]].
        apply IH in Hrest. subst total.
        destruct (f m); simpl in Hadd; try discriminate Hadd;
          injection Hadd as <-; lia.
      * apply IH in H. rewrite (falsy_counts_zero _ Htruthy). lia.
    + apply IH in H. lia.
Qed.

(** C5: in every trajectory produced, each run-level token total is the
    exact sum of the per-step values (a Step without Metrics, or without
    a value for the field, counting zero), reported as absent when that
    sum is zero, and [total_steps] is the number of Steps. *)
Theorem totals_are_exact_sums enc self version log t :
  convert enc self version log = Ret (Some t) ->
  exists fm,
    final_metrics t = Some fm
    /\ total_prompt_tokens fm = reported (exact_sum prompt_tokens (steps t))
    /\ total_completion_tokens fm
       = reported (exact_sum completion_tokens (steps t))
    /\ total_cached_tokens fm = reported (exact_sum cached_tokens (steps t))
    /\ total_steps fm = List.length (steps t).
Proof.
  intros H. apply convert_Some in H.
  destruct H as [n [_ [_ [tp [tc [tk [Hp [Hc [Hk Hfm]]]]]]]]].
  apply sum_from_exact in Hp, Hc, Hk. simpl in Hp, Hc, Hk. subst tp tc tk.
  eexists. split; [exact Hfm |]. simpl.
  rewrite !or_None_reported. repeat split.
Qed.

Lemma totals_are_exact_sums_witness :
  exists t,
    convert BlockEncoding sample_agent (JStr "0.1") usage_log = Ret (Some t)
    /\ final_metrics t = Some (mkFinalMetrics (Some 17) (Some 3) None 3).
Proof.
  eexists. split.
  - vm_compute. reflexivity.
  - destruct (totals_are_exact_sums BlockEncoding sample_agent (JStr "0.1")
                usage_log _ eq_refl)
      as [fm [Hfm [Hp [Hc [Hk Hn]]]]].
    destruct fm as [p c k steps_n]. simpl in Hp, Hc, Hk, Hn. subst.
    exact Hfm.
Defined.

Lemma selected_none f steps :
  Forall (fun s => metrics s = None) steps -> selected f steps = [].
Proof.
  induction 1 as [| s rest Hs _ IH]; simpl.
  - reflexivity.
  - rewrite Hs. exact IH.
Qed.

(** The flat loop attaches Metrics to no Step. *)
Lemma flat_steps_no_metrics self events steps n :
  for_each (Flat.handle_event self) events initial = Ret (steps, n) ->
  Forall (fun s => metrics s = None) steps.
Proof.
  intros Hrun.
  apply (for_each_Forall (fun s => metrics s = None) FlatEncoding self)
    with (steps := []) (n := 0%nat) (st' := (steps, n)) (events := events).
  - intros s r Hs. destruct (add_result_frame s r) as [_ [_ [_ ->]]]. exact Hs.
  - intros steps0 n0 e s Hs _. apply handle_event_step in Hs.
    destruct Hs as [[_ [s' [Heq [_ [_ Hm]]]]] | [_ [Hn _]]].
    + injection Heq as Heq. apply app_inj_tail in Heq.
      destruct Heq as [_ ->]. apply Hm. reflexivity.
    + simpl in Hn. lia.
  - exact Hrun.
  - constructor.
Qed.

(** C10: the flat converter attaches Metrics to no Step, so in every
    trajectory it produces the three token totals are absent and only
    [total_steps] has a value. *)
Theorem flat_totals_are_absent self log t :
  Flat._convert_events_to_trajectory self log = Ret (Some t) ->
  Forall (fun s => metrics s = None) (steps t)
  /\ final_metrics t
     = Some (mkFinalMetrics None None None (List.length (steps t))).
Proof.
  intros H. apply (convert_Some FlatEncoding self JNull) in H.
  destruct H as [n [Hrun [_ [tp [tc [tk [Hp [Hc [Hk Hfm]]]]]]]]].
  pose proof (flat_steps_no_metrics _ _ _ _ Hrun) as Hnone.
  split; [exact Hnone |].
  rewrite (selected_none prompt_tokens _ Hnone) in Hp.
  rewrite (selected_none completion_tokens _ Hnone) in Hc.
  rewrite (selected_none cached_tokens _ Hnone) in Hk.
  injection Hp as <-. injection Hc as <-. injection Hk as <-.
  exact Hfm.
Qed.

Lemma flat_totals_are_absent_witness :
  exists t,
    Flat._convert_events_to_trajectory sample_agent sample_log = Ret (Some t)
    /\ final_metrics t = Some (mkFinalMetrics None None None 2).
Proof.
  eexists. split.
  - vm_compute. reflexivity.
  - apply (flat_totals_are_absent sample_agent sample_log). vm_compute.
    reflexivity.
Defined.

(* ================================================================= *)
(** ** No data *)

Lemma read_events_app before after :
  read_events (before ++ after) = (read_events before ++ read_events after)%list.
Proof.
  induction before as [| l rest IH]; simpl.
  - reflexivity.
  - destruct l; simpl; rewrite IH; reflexivity.
Qed.


Lemma read_log_app before after :
  read_log (before ++ after)
  = (xs <- read_log before ;; ys <- read_log after ;; Ret (xs ++ ys)%list).
Proof.
  induction before as [| l rest IH]; simpl.
  - destruct (read_log after); reflexivity.
  - destruct l; simpl; try exact IH; try reflexivity.
    rewrite IH. destruct (read_log rest); simpl; [reflexivity |].
    destruct (read_log after); reflexivity.
Qed.





(* ================================================================= *)
(** ** The context sink *)


(** C9: when the post-run conversion fails (no log file, an exception
    in the conversion, or [None] for no data) the context is left as it
    was and nothing is written under [logs_dir]; a context that differs
    afterwards comes from a run that found a log file and produced a
    trajectory. *)
Theorem failure_leaves_context_untouched enc self version context :
  ((get_log_file enc self = None
    \/ exists log, get_log_file enc self = Some log
                   /\ ((exists e, convert enc self version log = Raise e)
                       \/ convert enc self version log = Ret None)) ->
   populate enc self version context = (logs_dir self, context))
  /\ (snd (populate enc self version context) <> context ->
      exists log t, get_log_file enc self = Some log
                    /\ convert enc self version log = Ret (Some t)).
Proof.
  split.
  - intros [Hnone | [log [Hlog [[e Hraise] | Hnodata]]]];
      destruct enc; simpl in *;
      unfold Flat.populate_context_post_run, Blocks.populate_context_post_run.
    + rewrite Hnone. reflexivity.
    + rewrite Hnone. reflexivity.
    + rewrite Hlog, Hraise. reflexivity.
    + rewrite Hlog, Hraise. reflexivity.
    + rewrite Hlog, Hnodata. reflexivity.
    + rewrite Hlog, Hnodata. reflexivity.
  - intros Hchanged.
    destruct (get_log_file enc self) as [log |] eqn:Hlog.
    + destruct (convert enc self version log) as [e | [t |]] eqn:Hconv.
      * exfalso. apply Hchanged.
        destruct enc; simpl in *;
          unfold Flat.populate_context_post_run,
                 Blocks.populate_context_post_run;
          rewrite Hlog, Hconv; reflexivity.
      * exists log, t. split; [reflexivity | exact Hconv].
      * exfalso. apply Hchanged.
        destruct enc; simpl in *;
          unfold Flat.populate_context_post_run,
                 Blocks.populate_context_post_run;
          rewrite Hlog, Hconv; reflexivity.
    + exfalso. apply Hchanged.
      destruct enc; simpl in *;
        unfold Flat.populate_context_post_run,
               Blocks.populate_context_post_run;
        rewrite Hlog; reflexivity.
Qed.

Lemma failure_leaves_context_untouched_witness :
  populate FlatEncoding empty_log_agent JNull prior_context
  = (logs_dir empty_log_agent, prior_context)
  /\ populate BlockEncoding raising_log_agent JNull prior_context
     = (logs_dir raising_log_agent, prior_context).
Proof.
  split.
  - apply (proj1 (failure_leaves_context_untouched FlatEncoding empty_log_agent
                    JNull prior_context)).
    right. exists []. split; [reflexivity |]. right. reflexivity.
  - apply (proj1 (failure_leaves_context_untouched BlockEncoding
                    raising_log_agent JNull prior_context)).
    right. exists [JsonLine (JInt 3)]. split; [reflexivity |].
    left. exists AttributeError. reflexivity.
Defined.

(* ================================================================= *)
(** ** The flat conversion returns *)

(** On a dict the flat handler never raises. *)
Lemma flat_handle_event_returns self st kvs :
  exists st', Flat.handle_event self st (JObj kvs) = Ret st'.
Proof.
  destruct st as [steps n].
  destruct (flat_creates_step_cases kvs) as [[_ Ht] | [Hc Ht]].
  - destruct Ht as [Ht | [Ht | Ht]]; eexists.
    + apply flat_user. exact Ht.
    + apply flat_tool_call. exact Ht.
    + apply flat_assistant. exact Ht.
  - destruct Ht as [Ht | Ht]; eexists.
    + apply flat_tool_result. exact Ht.
    + apply flat_unknown; assumption.
Qed.



(* ================================================================= *)
(** ** Scenarios *)

(** A [tool_call] followed by its [tool_result]: one Step, one
    ToolCall, one result holding the output. *)
Example scenario_call_then_result :
  for_each (Flat.handle_event sample_agent)
    [ev_call "abc"; JObj (ev_result "abc" "hello")] initial
  = Ret ([with_observation (call_step 1 "abc")
            (mkObservation [mkObservationResult (JStr "abc") (JStr "hello")])],
         1%nat).
Proof. reflexivity. Qed.

(** A malformed line followed by one [user] event: one Step. *)
Example scenario_malformed_then_user :
  exists t,
    Flat._convert_events_to_trajectory sample_agent
      [MalformedLine; JsonLine ev_user] = Ret (Some t)
    /\ map message (steps t) = [JStr "fix bug"]
    /\ option_map total_steps (final_metrics t) = Some 1%nat.
Proof. eexists. split; [vm_compute; reflexivity |]. split; reflexivity. Qed.

(** A content-block [user] then [assistant] with plain text: two Steps
    without ToolCalls or Observation. *)
Example scenario_user_then_assistant :
  exists t,
    Blocks._convert_events_to_trajectory sample_agent (JStr "0.1")
      [JsonLine (JObj [("type", JStr "user");
                       ("message", JObj [("content", JStr "fix bug")])]);
       JsonLine (JObj [("type", JStr "assistant");
                       ("message", JObj [("content", JStr "done")])])]
    = Ret (Some t)
    /\ map message (steps t) = [JStr "fix bug"; JStr "done"]
    /\ map tool_calls (steps t) = [None; None]
    /\ map observation (steps t) = [None; None]
    /\ option_map total_steps (final_metrics t) = Some 2%nat.
Proof.
  eexists. split; [vm_compute; reflexivity |]. repeat split; reflexivity.
Qed.

(** A [toolUseResult] that is a text, with a ToolCall extracted, makes
    the content-block handler raise. *)
Example scenario_text_toolUseResult_raises :
  Blocks.handle_event sample_agent initial
    (JObj (ev_block_assistant (JStr "Error: no such file")))
  = Raise AttributeError.
Proof. reflexivity. Qed.

(* ================================================================= *)
(** * Further properties of the conversion *)

(** ** What an iteration appends *)

Lemma new_step_cases enc self steps n e s :
  handle_event enc self (steps, n) e = Ret ((steps ++ [s])%list, S n) ->
  exists kvs,
    e = JObj kvs
    /\ match enc with
       | FlatEncoding =>
           s = flat_user_step n kvs \/ s = flat_tool_call_step self n kvs
           \/ s = flat_assistant_step self n kvs
       | BlockEncoding =>
           exists mkvs,
             lookup kvs "message" (JObj []) = JObj mkvs
             /\ (s = blocks_user_step n kvs mkvs
                 \/ s = blocks_assistant_step self n kvs mkvs)
       end.
Proof.
  intros H. pose proof (handle_event_dict _ _ _ _ _ H) as Hd.
  destruct e as [ | | | | | kvs]; try discriminate Hd. clear Hd.
  exists kvs. split; [reflexivity |].
  destruct enc; unfold handle_event in H.
  - destruct (flat_creates_step_cases kvs) as [[_ Ht] | [Hc Ht]].
    + destruct Ht as [Ht | [Ht | Ht]].
      * rewrite (flat_user _ _ _ _ Ht) in H. injection H as H.
        apply app_inj_tail in H. destruct H as [_ <-]. left. reflexivity.
      * rewrite (flat_tool_call _ _ _ _ Ht) in H. injection H as H.
        apply app_inj_tail in H. destruct H as [_ <-]. right. left. reflexivity.
      * rewrite (flat_assistant _ _ _ _ Ht) in H. injection H as H.
        apply app_inj_tail in H. destruct H as [_ <-]. right. right. reflexivity.
    + exfalso. destruct Ht as [Ht | Ht].
      * rewrite (flat_tool_result _ _ _ _ Ht) in H. injection H as _ Hn. lia.
      * rewrite (flat_unknown _ _ _ _ Hc Ht) in H. injection H as _ Hn. lia.
  - destruct (blocks_creates_step_cases kvs) as [[_ Ht] | Hc].
    + destruct Ht as [Ht | Ht].
      * destruct (blocks_user _ _ _ _ _ Ht H) as [mkvs [Hm Heq]].
        exists mkvs. split; [exact Hm |]. injection Heq as Heq.
        apply app_inj_tail in Heq. destruct Heq as [_ ->]. left. reflexivity.
      * destruct (blocks_assistant _ _ _ _ _ Ht H) as [mkvs [Hm Heq]].
        exists mkvs. split; [exact Hm |]. injection Heq as Heq.
        apply app_inj_tail in Heq. destruct Heq as [_ ->]. right. reflexivity.
    + exfalso. rewrite (blocks_unknown _ _ _ _ Hc) in H.
      injection H as _ Hn. lia.
Qed.

Lemma matching_inv call_id s :
  matching call_id s = true ->
  source s = SrcAgent
  /\ exists tcs, tool_calls s = Some tcs
                 /\ existsb (fun tc => py_eq (tool_call_id tc) call_id) tcs = true.
Proof.
  unfold matching. intros H. apply andb_prop in H. destruct H as [Hs H].
  split; [destruct (source s); [discriminate Hs | reflexivity] |].
  destruct (tool_calls s) as [tcs |]; [| discriminate H].
  apply andb_prop in H. exists tcs. split; [reflexivity | apply H].
Qed.

Lemma correlate_Forall_matching (P : Step -> Prop) steps call_id output :
  (forall s, P s -> matching call_id s = true ->
             P (add_result s (mkObservationResult call_id output))) ->
  Forall P steps -> Forall P (correlate steps call_id output).
Proof.
  intros HP H. unfold correlate. apply Forall_rev.
  apply Forall_rev in H. induction H as [| s rest Hs Hrest IH]; simpl.
  - constructor.
  - destruct (matching call_id s) eqn:Hm; constructor; auto.
Qed.

(** Every Step a loop builds satisfies a property that each appended
    Step has and that attaching a result to a matching Step keeps. *)
Lemma loop_Forall (P : Step -> Prop) enc self :
  (forall call_id output s,
     P s -> matching call_id s = true ->
     P (add_result s (mkObservationResult call_id output))) ->
  (forall steps n e s,
     handle_event enc self (steps, n) e = Ret ((steps ++ [s])%list, S n) -> P s) ->
  forall events steps n st',
    for_each (handle_event enc self) events (steps, n) = Ret st' ->
    Forall P steps -> Forall P (fst st').
Proof.
  intros Hadd Hnew events.
  induction events as [| e rest IH]; intros steps n st' Hrun HP; simpl in Hrun.
  - injection Hrun as <-. exact HP.
  - apply bind_Ret in Hrun. destruct Hrun as [[steps1 n1] [Hstep Hrest]].
    pose proof Hstep as Hstep'. apply handle_event_step in Hstep'.
    apply (IH _ _ _ Hrest).
    destruct Hstep' as [[Hc [s [Hst _]]] | [Hc [Hn Hsteps]]].
    + injection Hst as -> ->. apply Forall_app. split; [exact HP |].
      constructor; [| constructor]. eapply Hnew; eassumption.
    + simpl in Hsteps.
      destruct Hsteps as [-> | [call_id [output ->]]]; [exact HP |].
      apply correlate_Forall_matching; [| exact HP].
      intros s Hs Hm. apply Hadd; assumption.
Qed.

(** The content-block loop only appends. *)
Lemma blocks_loop_appends (P : Step -> Prop) self :
  (forall steps n e s,
     Blocks.handle_event self (steps, n) e = Ret ((steps ++ [s])%list, S n) ->
     P s) ->
  forall events steps n steps' n',
    for_each (Blocks.handle_event self) events (steps, n) = Ret (steps', n') ->
    exists added,
      steps' = (steps ++ added)%list /\ Forall P added
      /\ n' = (n + List.length added)%nat.
Proof.
  intros Hnew events.
  induction events as [| e rest IH]; intros steps n steps' n' Hrun;
    cbn [for_each] in Hrun.
  - injection Hrun as <- <-. exists []. rewrite app_nil_r. simpl.
    repeat split; [constructor | lia].
  - apply bind_Ret in Hrun. destruct Hrun as [[steps1 n1] [Hstep Hrest]].
    pose proof (handle_event_dict BlockEncoding _ _ _ _ Hstep) as Hd.
    destruct e as [ | | | | | kvs]; try discriminate Hd. clear Hd.
    destruct (blocks_creates_step_cases kvs) as [[Hc _] | Hc].
    + pose proof (handle_event_step BlockEncoding _ _ _ _ _ Hstep) as Hs.
      destruct Hs as [[_ [s [Hst _]]] | [Hc' _]];
        [| simpl in Hc'; congruence].
      injection Hst as -> ->.
      destruct (IH _ _ _ _ Hrest) as [added [-> [Hadded ->]]].
      exists (s :: added). rewrite <- app_assoc. simpl.
      repeat split; [| lia].
      constructor; [| exact Hadded]. eapply Hnew. exact Hstep.
    + rewrite (blocks_unknown _ _ _ _ Hc) in Hstep. injection Hstep as <- <-.
      apply (IH _ _ _ _ Hrest).
Qed.

(** ** Invariants of the Steps of a trajectory *)

Lemma add_result_observation s r :
  observation (add_result s r)
  = Some (mkObservation (existing_results s ++ [r])).
Proof. rewrite add_result_spec. reflexivity. Qed.

(** X1: in every trajectory either version produces, a user Step has
    no model name, no reasoning content, no ToolCalls, no Observation
    and no Metrics: tool results are never attached to a user Step. *)
Theorem user_steps_are_bare enc self version log t :
  convert enc self version log = Ret (Some t) ->
  Forall bare_user (steps t).
Proof.
  intros H. apply convert_Some in H. destruct H as [n [Hrun _]].
  apply (loop_Forall bare_user enc self) in Hrun; [exact Hrun | | | constructor].
  - intros call_id output s _ Hm Hsrc.
    destruct (add_result_frame s (mkObservationResult call_id output))
      as [_ [Hs _]].
    rewrite Hs in Hsrc. apply matching_inv in Hm. destruct Hm as [Hm _].
    congruence.
  - intros steps0 n0 e s Hs. apply new_step_cases in Hs.
    destruct Hs as [kvs [_ Hs]]. destruct enc.
    + destruct Hs as [-> | [-> | ->]]; intros Hsrc;
        try discriminate Hsrc; repeat split.
    + destruct Hs as [mkvs [_ [-> | ->]]]; intros Hsrc;
        try discriminate Hsrc; repeat split.
Qed.

Lemma user_steps_are_bare_witness :
  exists t,
    convert FlatEncoding sample_agent JNull sample_log = Ret (Some t)
    /\ Forall bare_user (steps t).
Proof.
  eexists. split.
  - vm_compute. reflexivity.
  - apply (user_steps_are_bare FlatEncoding sample_agent JNull sample_log).
    vm_compute. reflexivity.
Defined.

(** X2: in every trajectory of the flat version a Step either has no
    ToolCall and no Observation, or is an agent Step with the message
    [Tool execution] and exactly one ToolCall; an Observation is never
    empty, and the [source_call_id] of each of its results equals the id
    of the Step's own ToolCall. *)
Theorem flat_steps_are_flat_shaped self log t :
  Flat._convert_events_to_trajectory self log = Ret (Some t) ->
  Forall flat_shaped (steps t).
Proof.
  intros H. apply (convert_Some FlatEncoding self JNull) in H.
  destruct H as [n [Hrun _]].
  apply (loop_Forall flat_shaped FlatEncoding self) in Hrun;
    [exact Hrun | | | constructor].
  - intros call_id output s Hs Hm.
    apply matching_inv in Hm. destruct Hm as [_ [tcs [Htcs Hex]]].
    destruct Hs as [[Hnone _] | [tc [Htc [Hsrc [Hmsg Hobs]]]]];
      [congruence |].
    right. exists tc.
    destruct (add_result_frame s (mkObservationResult call_id output))
      as [_ [Hs' [Htc' _]]].
    rewrite Htc', Hs'. repeat split; try assumption.
    { unfold add_result. destruct (observation s); exact Hmsg. }
    rewrite add_result_observation. simpl.
    rewrite Htc in Htcs. injection Htcs as <-. simpl in Hex.
    rewrite orb_false_r in Hex.
    split; [destruct (existing_results s); discriminate |].
    apply Forall_app. split.
    + unfold existing_results. destruct (observation s) as [obs |];
        [apply Hobs | constructor].
    + constructor; [exact Hex | constructor].
  - intros steps0 n0 e s Hs. apply new_step_cases in Hs.
    destruct Hs as [kvs [_ [-> | [-> | ->]]]].
    + left. split; reflexivity.
    + right. eexists. repeat split.
    + left. split; reflexivity.
Qed.

Lemma flat_steps_are_flat_shaped_witness :
  exists t,
    Flat._convert_events_to_trajectory sample_agent sample_log = Ret (Some t)
    /\ Forall flat_shaped (steps t).
Proof.
  eexists. split.
  - vm_compute. reflexivity.
  - apply (flat_steps_are_flat_shaped sample_agent sample_log).
    vm_compute. reflexivity.
Defined.

Lemma embedded_observation_shaped tcs tool_result :
  embedded_observation tcs tool_result = None
  \/ exists first more text,
       tcs = first :: more
       /\ embedded_observation tcs tool_result
          = Some (mkObservation [mkObservationResult (tool_call_id first) text]).
Proof.
  unfold embedded_observation. destruct tcs as [| first more]; [left; reflexivity |].
  destruct (truthy tool_result); [| left; reflexivity].
  right. eexists. eexists. eexists. split; reflexivity.
Qed.

(** X3: in every trajectory of the content-block version a Step with
    an Observation is an agent Step with at least one ToolCall, and the
    Observation holds exactly one result, whose [source_call_id] is the
    id of the Step's first ToolCall. *)
Theorem block_steps_are_block_shaped self version log t :
  Blocks._convert_events_to_trajectory self version log = Ret (Some t) ->
  Forall block_shaped (steps t).
Proof.
  intros H. apply (convert_Some BlockEncoding self version) in H.
  destruct H as [n [Hrun _]].
  apply (blocks_loop_appends block_shaped self) in Hrun.
  - destruct Hrun as [added [-> [Hadded _]]]. exact Hadded.
  - intros steps0 n0 e s Hs.
    apply (new_step_cases BlockEncoding) in Hs.
    destruct Hs as [kvs [_ [mkvs [_ [-> | ->]]]]].
    + left. reflexivity.
    + unfold block_shaped, blocks_assistant_step. simpl.
      destruct (embedded_observation_shaped
                  (fst (calls_and_text (lookup mkvs "content" (JStr ""))))
                  (lookup kvs "toolUseResult" JNull))
        as [-> | [first [more [text [-> ->]]]]].
      * left. reflexivity.
      * right. exists first, more, text. repeat split.
Qed.

Lemma block_steps_are_block_shaped_witness :
  exists t,
    Blocks._convert_events_to_trajectory sample_agent (JStr "0.1")
      [JsonLine (JObj (ev_block_assistant (JObj [("stdout", JStr "a.txt")])))]
    = Ret (Some t)
    /\ Forall block_shaped (steps t).
Proof.
  eexists. split.
  - vm_compute. reflexivity.
  - apply (block_steps_are_block_shaped sample_agent (JStr "0.1")
             [JsonLine (JObj (ev_block_assistant (JObj [("stdout", JStr "a.txt")])))]).
    vm_compute. reflexivity.
Defined.

(** ** Steps are kept *)

Lemma grows_refl s : grows s s.
Proof. split; [reflexivity |]. exists []. rewrite app_nil_r. reflexivity. Qed.

Lemma grows_trans a b c : grows a b -> grows b c -> grows a c.
Proof.
  intros [Hab [m1 H1]] [Hbc [m2 H2]]. split; [congruence |].
  exists (m1 ++ m2)%list. rewrite H2, H1, app_assoc. reflexivity.
Qed.

Lemma grows_add_result s r : grows s (add_result s r).
Proof.
  split.
  - unfold add_result, forget_observation. destruct (observation s); reflexivity.
  - exists [r]. rewrite add_result_spec. reflexivity.
Qed.

Lemma Forall2_grows_refl l : Forall2 grows l l.
Proof. induction l; constructor; [apply grows_refl | assumption]. Qed.

Lemma Forall2_grows_trans l1 : forall l2 l3,
  Forall2 grows l1 l2 -> Forall2 grows l2 l3 -> Forall2 grows l1 l3.
Proof.
  induction l1 as [| a l1 IH]; intros l2 l3 H12 H23.
  - inversion H12; subst. inversion H23; subst. constructor.
  - inversion H12 as [| a' b l1' l2' Hab Hrest]; subst.
    inversion H23 as [| b' c l2'' l3' Hbc Hrest']; subst.
    constructor; [eapply grows_trans; eassumption | eapply IH; eassumption].
Qed.

(** The correlator leaves the Steps alone or attaches one result to
    the latest matching Step. *)
Lemma correlate_cases steps call_id output :
  correlate steps call_id output = steps
  \/ exists before step after,
       steps = (before ++ step :: after)%list
       /\ matching call_id step = true
       /\ (forall s, In s after -> matching call_id s = false)
       /\ correlate steps call_id output
          = (before ++ add_result step (mkObservationResult call_id output)
               :: after)%list.
Proof.
  destruct (existsb (matching call_id) steps) eqn:Hex.
  - right. destruct (last_match _ _ Hex) as [before [step [after [-> [Hm Hafter]]]]].
    exists before, step, after. repeat split; try assumption.
    apply correlate_match; assumption.
  - left. apply correlate_no_match. intros s Hin.
    destruct (matching call_id s) eqn:Hm; [| reflexivity].
    rewrite <- Hex. symmetry. apply existsb_exists. exists s. auto.
Qed.

Lemma correlate_grows steps call_id output :
  Forall2 grows steps (correlate steps call_id output).
Proof.
  destruct (correlate_cases steps call_id output)
    as [-> | [before [step [after [-> [_ [_ ->]]]]]]].
  - apply Forall2_grows_refl.
  - apply Forall2_app; [apply Forall2_grows_refl |].
    constructor; [apply grows_add_result | apply Forall2_grows_refl].
Qed.

(** X4: whatever events follow, either loop keeps every Step it has
    built, in order and unchanged but for its observation, whose
    results are only ever extended at the end; new Steps come after the
    kept ones and the counter advances by their number. *)
Theorem steps_are_kept enc self events steps n steps' n' :
  for_each (handle_event enc self) events (steps, n) = Ret (steps', n') ->
  exists kept added,
    steps' = (kept ++ added)%list
    /\ Forall2 grows steps kept
    /\ n' = (n + List.length added)%nat.
Proof.
  revert steps n. induction events as [| e rest IH]; intros steps n Hrun;
    simpl in Hrun.
  - injection Hrun as <- <-. exists steps, []. rewrite app_nil_r. simpl.
    repeat split; [apply Forall2_grows_refl | lia].
  - apply bind_Ret in Hrun. destruct Hrun as [[steps1 n1] [Hstep Hrest]].
    apply handle_event_step in Hstep.
    destruct (IH _ _ Hrest) as [kept1 [added1 [-> [Hkept ->]]]].
    destruct Hstep as [[_ [s [Hst _]]] | [_ [Hn Hsteps]]].
    + injection Hst as -> ->.
      apply Forall2_app_inv_l in Hkept.
      destruct Hkept as [kept [tail [Hk [Ht ->]]]].
      exists kept, (tail ++ added1)%list. rewrite <- app_assoc.
      repeat split; [exact Hk |].
      apply Forall2_length in Ht. simpl in Ht. rewrite length_app. lia.
    + simpl in Hn, Hsteps. subst n1.
      exists kept1, added1. repeat split.
      destruct Hsteps as [-> | [call_id [output ->]]]; [exact Hkept |].
      eapply Forall2_grows_trans; [apply correlate_grows | exact Hkept].
Qed.

Lemma steps_are_kept_witness :
  exists kept added,
    [with_observation (call_step 1 "abc")
       (mkObservation [mkObservationResult (JStr "abc") (JStr "hello")]);
     flat_user_step 1 [("type", JStr "user"); ("content", JStr "fix bug")]]
    = (kept ++ added)%list
    /\ Forall2 grows [call_step 1 "abc"] kept
    /\ 2%nat = (1 + List.length added)%nat.
Proof.
  apply (steps_are_kept FlatEncoding sample_agent
           [JObj (ev_result "abc" "hello"); ev_user]
           [call_step 1 "abc"] 1).
  reflexivity.
Defined.

(** X5: the content-block loop never changes a Step it has built:
    the Steps after any further events are the earlier Steps followed by
    the new ones. *)
Theorem block_steps_are_final self events steps n steps' n' :
  for_each (Blocks.handle_event self) events (steps, n) = Ret (steps', n') ->
  exists added,
    steps' = (steps ++ added)%list /\ n' = (n + List.length added)%nat.
Proof.
  intros Hrun.
  apply (blocks_loop_appends (fun _ => True) self) in Hrun.
  - destruct Hrun as [added [-> [_ ->]]]. exists added. split; reflexivity.
  - intros. exact I.
Qed.

Lemma block_steps_are_final_witness :
  exists added,
    [blocks_user_step 0 [("type", JStr "user")] [];
     blocks_user_step 1 [("type", JStr "user")] []]
    = ([blocks_user_step 0 [("type", JStr "user")] []] ++ added)%list
    /\ 2%nat = (1 + List.length added)%nat.
Proof.
  apply (block_steps_are_final sample_agent
           [JObj [("type", JStr "tool_result"); ("tool_call_id", JStr "x")];
            JObj [("type", JStr "user")]]
           [blocks_user_step 0 [("type", JStr "user")] []] 1).
  reflexivity.
Defined.

Lemma matching_add_result call_id s r :
  matching call_id (add_result s r) = matching call_id s.
Proof.
  unfold matching.
  destruct (add_result_frame s r) as [_ [-> [-> _]]]. reflexivity.
Qed.

(** X6: results for the same call id accumulate on the same Step in
    arrival order: attaching a result does not change which Step the
    next result with that id goes to, and the second result follows the
    first. *)
Theorem results_accumulate_in_order before step after call_id first second :
  matching call_id step = true ->
  (forall s, In s after -> matching call_id s = false) ->
  correlate (correlate (before ++ step :: after) call_id first) call_id second
  = (before
       ++ with_observation step
            (mkObservation
               (existing_results step
                  ++ [mkObservationResult call_id first;
                      mkObservationResult call_id second]))
       :: after)%list.
Proof.
  intros Hm Hafter.
  rewrite (correlate_match call_id first before step after Hm Hafter).
  rewrite correlate_match; [| rewrite matching_add_result; exact Hm | exact Hafter].
  rewrite !add_result_spec. unfold with_observation. simpl.
  change (existing_results
            (mkStep (step_id step) (timestamp step) (source step) (message step)
               (model_name step) (reasoning_content step) (tool_calls step)
               (Some (mkObservation
                        (existing_results step
                           ++ [mkObservationResult call_id first])))
               (metrics step)))
    with (existing_results step ++ [mkObservationResult call_id first])%list.
  rewrite <- app_assoc. reflexivity.
Qed.

Lemma results_accumulate_in_order_witness :
  correlate
    (correlate [call_step 1 "abc"; flat_user_step 1 []] (JStr "abc") (JStr "one"))
    (JStr "abc") (JStr "two")
  = [with_observation (call_step 1 "abc")
       (mkObservation [mkObservationResult (JStr "abc") (JStr "one");
                       mkObservationResult (JStr "abc") (JStr "two")]);
     flat_user_step 1 []].
Proof.
  apply (results_accumulate_in_order [] (call_step 1 "abc")
           [flat_user_step 1 []] (JStr "abc") (JStr "one") (JStr "two")).
  - reflexivity.
  - intros s [<- | []]. reflexivity.
Defined.

(** ** When the conversion raises *)


Lemma non_dict_raises enc self st e :
  is_dict e = false -> handle_event enc self st e = Raise AttributeError.
Proof.
  intros He. destruct st as [steps n].
  destruct e; try discriminate He; destruct enc; reflexivity.
Qed.


(** A log without aborting line is read to its end; the first
    aborting line of a log decides the exception of the reading loop. *)
Lemma read_log_no_abort log :
  Forall (fun l => aborting l = false) log ->
  read_log log = Ret (read_events log).
Proof.
  induction 1 as [| l rest Hl _ IH]; simpl.
  - reflexivity.
  - destruct l; try discriminate Hl; simpl; rewrite IH; reflexivity.
Qed.

Lemma read_log_first_abort before why after :
  Forall (fun l => aborting l = false) before ->
  read_log (before ++ AbortingLine why :: after) = Raise (Uncaught why).
Proof.
  intros H. rewrite read_log_app, (read_log_no_abort before H). reflexivity.
Qed.

Lemma abort_split log :
  Forall (fun l => aborting l = false) log
  \/ exists before why after,
       log = (before ++ AbortingLine why :: after)%list
       /\ Forall (fun l => aborting l = false) before.
Proof.
  induction log as [| l rest [IH | [before [why [after [-> IH]]]]]].
  - left. constructor.
  - destruct l as [ | | v | why].
    4: { right. exists [], why, rest. split; [reflexivity | constructor]. }
    all: left; constructor; [reflexivity | exact IH].
  - destruct l as [ | | v | why'].
    4: { right. exists [], why', (before ++ AbortingLine why :: after)%list.
         split; [reflexivity | constructor]. }
    all: right; eexists (_ :: before), why, after;
      (split; [reflexivity | constructor; [reflexivity | exact IH]]).
Qed.



(** The handlers raise nothing but [AttributeError]. *)
Lemma handle_event_raises enc self st e x :
  handle_event enc self st e = Raise x -> x = AttributeError.
Proof.
  intros H. destruct (is_dict e) eqn:He.
  - destruct e as [ | | | | | kvs]; try discriminate He. clear He.
    destruct st as [steps n]. destruct enc; unfold handle_event in H.
    + destruct (flat_handle_event_returns self (steps, n) kvs) as [st' Hr].
      congruence.
    + destruct (blocks_creates_step_cases kvs) as [[_ [Ht | Ht]] | Hc].
      * cbv beta iota delta [Blocks.handle_event get bind] in H.
        rewrite Ht in H.
        destruct (lookup kvs "message" (JObj [])); congruence.
      * destruct (lookup kvs "message" (JObj [])) as [ | | | | | mkvs] eqn:Hm.
        6: { rewrite (blocks_assistant_eq _ _ _ _ _ Ht Hm) in H.
             destruct (gets_usage _ && gets_stdout _ _); congruence. }
        all: cbv beta iota delta [Blocks.handle_event get bind] in H;
          apply py_eq_str in Ht; rewrite Ht, Hm in H;
          cbv beta iota delta [py_eq String.eqb Ascii.eqb Bool.eqb] in H;
          congruence.
      * rewrite (blocks_unknown _ _ _ _ Hc) in H. discriminate H.
  - rewrite (non_dict_raises enc self st e He) in H. congruence.
Qed.

Lemma for_each_raises enc self events : forall st x,
  for_each (handle_event enc self) events st = Raise x -> x = AttributeError.
Proof.
  induction events as [| e rest IH]; intros st x H; simpl in H.
  - discriminate H.
  - destruct (handle_event enc self st e) as [y | st1] eqn:Hstep; simpl in H.
    + apply handle_event_raises in Hstep. congruence.
    + eapply IH. exact H.
Qed.

Lemma sum_from_numeric vals : forall acc,
  Forall (fun v => numeric v = true) vals -> exists z, sum_from acc vals = Ret z.
Proof.
  induction vals as [| v rest IH]; intros acc H; simpl.
  - exists acc. reflexivity.
  - inversion H as [| x l Hv Hrest]; subst.
    destruct v; try discriminate Hv; simpl; apply IH; exact Hrest.
Qed.

Lemma sum_from_not_numeric vals : forall acc,
  Exists (fun v => numeric v = false) vals ->
  sum_from acc vals = Raise TypeError.
Proof.
  induction vals as [| v rest IH]; intros acc H; simpl.
  - inversion H.
  - destruct v; simpl; try reflexivity;
      (inversion H as [x l Hv | x l Hl]; subst; [discriminate Hv | apply IH; exact Hl]).
Qed.

Lemma numeric_or_not vals :
  Forall (fun v => numeric v = true) vals
  \/ Exists (fun v => numeric v = false) vals.
Proof.
  induction vals as [| v rest [IH | IH]].
  - left. constructor.
  - destruct (numeric v) eqn:Hv.
    + left. constructor; assumption.
    + right. apply Exists_cons_hd. exact Hv.
  - right. apply Exists_cons_tl. exact IH.
Qed.

Lemma selected_bad f steps :
  Exists (fun v => numeric v = false) (selected f steps)
  <-> exists s, In s steps /\ bad_count f s = true.
Proof.
  unfold bad_count. induction steps as [| s rest IH]; simpl.
  - split; [intros H; inversion H | intros [s [[] _]]].
  - destruct (metrics s) as [m |] eqn:Hm.
    + destruct (truthy (f m)) eqn:Ht.
      * split.
        -- intros H. inversion H as [x l Hv | x l Hl]; subst.
           ++ exists s. split; [left; reflexivity |]. rewrite Hm, Ht, Hv.
              reflexivity.
           ++ apply IH in Hl. destruct Hl as [s' [Hin Hb]].
              exists s'. split; [right; exact Hin | exact Hb].
        -- intros [s' [[<- | Hin] Hb]].
           ++ rewrite Hm, Ht in Hb. simpl in Hb.
              apply Exists_cons_hd. apply negb_true_iff. exact Hb.
           ++ apply Exists_cons_tl. apply IH. exists s'. auto.
      * rewrite IH. split.
        -- intros [s' [Hin Hb]]. exists s'. auto.
        -- intros [s' [[<- | Hin] Hb]].
           ++ rewrite Hm, Ht in Hb. discriminate Hb.
           ++ exists s'. auto.
    + rewrite IH. split.
      * intros [s' [Hin Hb]]. exists s'. auto.
      * intros [s' [[<- | Hin] Hb]].
        -- rewrite Hm in Hb. discriminate Hb.
        -- exists s'. auto.
Qed.

(** The aggregation raises exactly when a Step has a bad count. *)
Lemma assemble_cases name version model session_id steps :
  (exists s, In s steps /\ has_bad_count s = true)
  /\ assemble name version model session_id steps = Raise TypeError
  \/ (forall s, In s steps -> has_bad_count s = false)
     /\ exists r, assemble name version model session_id steps = Ret r.
Proof.
  unfold assemble. destruct steps as [| s0 more].
  - right. split; [intros s [] | exists None; reflexivity].
  - cbn [nonempty negb]. unfold py_sum.
    destruct (numeric_or_not (selected prompt_tokens (s0 :: more))) as [Hp | Hp].
    2: { left. split.
         - apply selected_bad in Hp. destruct Hp as [s [Hin Hb]].
           exists s. split; [exact Hin |]. unfold has_bad_count. rewrite Hb.
           reflexivity.
         - rewrite (sum_from_not_numeric _ 0 Hp). reflexivity. }
    destruct (sum_from_numeric _ 0 Hp) as [tp ->]. cbn [bind].
    destruct (numeric_or_not (selected completion_tokens (s0 :: more)))
      as [Hc | Hc].
    2: { left. split.
         - apply selected_bad in Hc. destruct Hc as [s [Hin Hb]].
           exists s. split; [exact Hin |]. unfold has_bad_count. rewrite Hb.
           rewrite orb_true_r. reflexivity.
         - rewrite (sum_from_not_numeric _ 0 Hc). reflexivity. }
    destruct (sum_from_numeric _ 0 Hc) as [tc ->]. cbn [bind].
    destruct (numeric_or_not (selected cached_tokens (s0 :: more))) as [Hk | Hk].
    2: { left. split.
         - apply selected_bad in Hk. destruct Hk as [s [Hin Hb]].
           exists s. split; [exact Hin |]. unfold has_bad_count. rewrite Hb.
           rewrite !orb_true_r. reflexivity.
         - rewrite (sum_from_not_numeric _ 0 Hk). reflexivity. }
    destruct (sum_from_numeric _ 0 Hk) as [tk ->]. cbn [bind].
    right. split; [| eexists; reflexivity].
    intros s Hin. unfold has_bad_count.
    destruct (bad_count prompt_tokens s) eqn:Bp.
    { exfalso. assert (He : Exists (fun v => numeric v = false)
                                   (selected prompt_tokens (s0 :: more)))
        by (apply selected_bad; exists s; auto).
      apply Exists_exists in He. destruct He as [v [Hv Hn]].
      rewrite Forall_forall in Hp. rewrite (Hp v Hv) in Hn. discriminate Hn. }
    destruct (bad_count completion_tokens s) eqn:Bc.
    { exfalso. assert (He : Exists (fun v => numeric v = false)
                                   (selected completion_tokens (s0 :: more)))
        by (apply selected_bad; exists s; auto).
      apply Exists_exists in He. destruct He as [v [Hv Hn]].
      rewrite Forall_forall in Hc. rewrite (Hc v Hv) in Hn. discriminate Hn. }
    destruct (bad_count cached_tokens s) eqn:Bk; [| reflexivity].
    exfalso. assert (He : Exists (fun v => numeric v = false)
                                 (selected cached_tokens (s0 :: more)))
      by (apply selected_bad; exists s; auto).
    apply Exists_exists in He. destruct He as [v [Hv Hn]].
    rewrite Forall_forall in Hk. rewrite (Hk v Hv) in Hn. discriminate Hn.
Qed.

(** How a conversion that got past the first event ends. *)
Lemma convert_unfold enc self version log first rest :
  read_log log = Ret (read_events log) ->
  read_events log = first :: rest ->
  is_dict first = true ->
  exists session_id agent_version,
    convert enc self version log =
    st <- for_each (handle_event enc self) (read_events log) initial ;;
    assemble Flat.name agent_version (self_model_name self) session_id (fst st).
Proof.
  intros Hread Hev Hd. destruct first as [ | | | | | kvs]; try discriminate Hd.
  exists (lookup kvs "sessionId" (JStr "unknown")).
  eexists. rewrite (convert_after_read enc self version log Hread), Hev.
  reflexivity.
Qed.

(** X8: a conversion of either version raises a [TypeError] exactly
    when the file was read to its end, its loop ended normally and some
    Step holds a token count that is true in a boolean context and is
    no number (a non-empty text, list or dict): the count passes the
    filter of the sum and cannot be added. *)
Theorem conversion_raises_TypeError_iff_bad_count enc self version log :
  convert enc self version log = Raise TypeError
  <-> Forall (fun l => aborting l = false) log
      /\ exists steps n,
           for_each (handle_event enc self) (read_events log) initial
           = Ret (steps, n)
           /\ exists s, In s steps /\ has_bad_count s = true.
Proof.
  split.
  - intros H.
    destruct (abort_split log) as [Hok | [before [why [after [Hlog Hb]]]]].
    2: { rewrite (convert_read_raises enc self version log why) in H;
           [discriminate H |].
         rewrite Hlog. apply read_log_first_abort. exact Hb. }
    split; [exact Hok |].
    destruct (read_events log) as [| first rest] eqn:Hev.
    { rewrite (convert_after_read enc self version log (read_log_no_abort log Hok)), Hev in H.
      discriminate H. }
    destruct (is_dict first) eqn:Hd.
    + destruct (convert_unfold enc self version log first rest
                  (read_log_no_abort log Hok) Hev Hd)
        as [sid [ver Heq]].
      rewrite Heq, Hev in H.
      destruct (for_each (handle_event enc self) (first :: rest) initial)
        as [x | [steps n]] eqn:Hrun.
      * apply for_each_raises in Hrun. simpl in H. congruence.
      * simpl in H. exists steps, n. split; [reflexivity |].
        destruct (assemble_cases Flat.name ver (self_model_name self) sid steps)
          as [[Hbad _] | [_ [r Hr]]]; [exact Hbad | congruence].
    + exfalso.
      rewrite (convert_after_read enc self version log (read_log_no_abort log Hok)), Hev in H.
      destruct first; try discriminate Hd; discriminate H.
  - intros [Hok [steps [n [Hrun [s [Hin Hbad]]]]]].
    destruct (read_events log) as [| first rest] eqn:Hev.
    { simpl in Hrun. injection Hrun as <- _. destruct Hin. }
    assert (Hd : is_dict first = true).
    { cbn [for_each] in Hrun. apply bind_Ret in Hrun.
      destruct Hrun as [st1 [Hstep _]].
      apply handle_event_dict in Hstep. exact Hstep. }
    destruct (convert_unfold enc self version log first rest
                (read_log_no_abort log Hok) Hev Hd)
      as [sid [ver Heq]].
    rewrite Heq, Hev, Hrun. cbn [bind fst].
    destruct (assemble_cases Flat.name ver (self_model_name self) sid steps)
      as [[_ Hr] | [Hgood _]]; [exact Hr |].
    rewrite (Hgood s Hin) in Hbad. discriminate Hbad.
Qed.

Lemma conversion_raises_TypeError_iff_bad_count_witness :
  convert BlockEncoding sample_agent (JStr "0.1")
    [JsonLine (ev_usage (JStr "12") (JInt 3) JNull)]
  = Raise TypeError.
Proof.
  apply (conversion_raises_TypeError_iff_bad_count BlockEncoding sample_agent
           (JStr "0.1") [JsonLine (ev_usage (JStr "12") (JInt 3) JNull)]).
  split; [repeat constructor |].
  eexists. eexists. split.
  - vm_compute. reflexivity.
  - eexists. split; [left; reflexivity | reflexivity].
Defined.

(** ** The assembled trajectory and the context *)

(** X9: the number of Steps of a trajectory, and its [total_steps],
    is the number of decoded events that open a Step ([user],
    [assistant] and, in the flat version, [tool_call]): [tool_result]
    events and unknown types add nothing to it. *)
Theorem total_steps_counts_events enc self version log t :
  convert enc self version log = Ret (Some t) ->
  List.length (steps t) = count_creating enc (read_events log)
  /\ option_map total_steps (final_metrics t)
     = Some (count_creating enc (read_events log)).
Proof.
  intros H. apply convert_Some in H.
  destruct H as [n [Hrun [_ [tp [tc [tk [_ [_ [_ Hfm]]]]]]]]].
  apply for_each_ids in Hrun; [| reflexivity].
  simpl in Hrun. destruct Hrun as [Hids ->].
  assert (Hlen : List.length (steps t) = count_creating enc (read_events log)).
  { rewrite <- (length_map step_id), Hids, length_seq. reflexivity. }
  split; [exact Hlen |]. rewrite Hfm. simpl. rewrite Hlen. reflexivity.
Qed.

Lemma total_steps_counts_events_witness :
  exists t,
    convert FlatEncoding sample_agent JNull sample_log = Ret (Some t)
    /\ List.length (steps t) = 2%nat
    /\ option_map total_steps (final_metrics t) = Some 2%nat.
Proof.
  eexists. split.
  - vm_compute. reflexivity.
  - apply (total_steps_counts_events FlatEncoding sample_agent JNull sample_log).
    vm_compute. reflexivity.
Defined.







(** X14: a trajectory carries the schema version [ATIF-v1.4], the
    agent name [code-editing-agent] with the version and the run's
    model, and as session id the [sessionId] of the first decoded event,
    whatever that event's type, or [unknown] when it has none. *)
Theorem trajectory_header enc self version log t :
  convert enc self version log = Ret (Some t) ->
  schema_version t = "ATIF-v1.4"
  /\ agent t
     = mkAgent (JStr "code-editing-agent")
               (match enc with
                | FlatEncoding => JStr "1.0.0"
                | BlockEncoding => version
                end)
               (self_model_name self)
  /\ exists kvs rest,
       read_events log = JObj kvs :: rest
       /\ session_id t = lookup kvs "sessionId" (JStr "unknown").
Proof.
  intros H.
  assert (Hgen :
    exists kvs rest (st : LoopState),
      read_events log = JObj kvs :: rest
      /\ assemble Flat.name
           (match enc with FlatEncoding => Flat.version | _ => version end)
           (self_model_name self) (lookup kvs "sessionId" (JStr "unknown"))
           (fst st)
         = Ret (Some t)).
  { pose proof (convert_read _ _ _ _ _ H) as Hread.
    rewrite (convert_after_read _ _ _ _ Hread) in H.
    destruct (read_events log) as [| first rest]; try discriminate H.
    destruct first as [ | | | | | kvs]; try discriminate H.
    cbv beta iota delta [get] in H. cbn [bind] in H.
    apply bind_Ret in H. destruct H as [st [_ H]].
    exists kvs, rest, st. split; [reflexivity | exact H]. }
  destruct Hgen as [kvs [rest [st [Hev Hasm]]]].
  unfold assemble in Hasm.
  destruct (negb (nonempty (fst st))); [discriminate Hasm |].
  apply bind_Ret in Hasm. destruct Hasm as [tp [_ Hasm]].
  apply bind_Ret in Hasm. destruct Hasm as [tc [_ Hasm]].
  apply bind_Ret in Hasm. destruct Hasm as [tk [_ Hasm]].
  injection Hasm as <-. simpl.
  split; [reflexivity |]. split; [destruct enc; reflexivity |].
  exists kvs, rest. split; [exact Hev | reflexivity].
Qed.

Lemma trajectory_header_witness :
  exists t,
    convert BlockEncoding sample_agent (JStr "0.1")
      [JsonLine (JObj [("type", JStr "system"); ("sessionId", JStr "s-42")]);
       JsonLine (JObj [("type", JStr "user")])]
    = Ret (Some t)
    /\ session_id t = JStr "s-42"
    /\ agent t = mkAgent (JStr "code-editing-agent") (JStr "0.1")
                         (JStr "sample-model").
Proof.
  eexists. split; [vm_compute; reflexivity |].
  destruct (trajectory_header BlockEncoding sample_agent (JStr "0.1")
              [JsonLine (JObj [("type", JStr "system"); ("sessionId", JStr "s-42")]);
               JsonLine (JObj [("type", JStr "user")])]
              _ eq_refl) as [_ [Hagent [kvs [rest [Hev Hsid]]]]].
  split; [| exact Hagent].
  simpl in Hev. injection Hev as <- _. exact Hsid.
Defined.


(** ** More on the content-block handler *)

(** X15: take a content-block assistant event whose [message] is an
    object (or missing) and whose content is not a list (a plain text,
    or missing).  When [message.usage] is missing, empty or an object,
    the event opens an agent Step without ToolCalls and without
    Observation, whatever [toolUseResult] holds: the result is not even
    consulted, so a [toolUseResult] that is a text raises nothing here;
    the message is the stringified content, or the placeholder
    [Tool execution] when that is empty.  When [message.usage] is true
    in a boolean context and is not an object (a non-empty text, a
    number other than zero, a non-empty list), the handler raises an
    [AttributeError] and opens no Step. *)
Theorem plain_text_assistant_step self steps n kvs mkvs :
  py_eq (lookup kvs "type" JNull) (JStr "assistant") = true ->
  lookup kvs "message" (JObj []) = JObj mkvs ->
  (forall blocks, lookup mkvs "content" (JStr "") <> JArr blocks) ->
  let usage := lookup mkvs "usage" (JObj []) in
  (truthy usage = false \/ is_dict usage = true ->
   exists s,
     Blocks.handle_event self (steps, n) (JObj kvs)
     = Ret ((steps ++ [s])%list, S n)
     /\ source s = SrcAgent
     /\ tool_calls s = None
     /\ observation s = None
     /\ message s =
        JStr (if String.eqb (py_str (lookup mkvs "content" (JStr ""))) ""
              then "Tool execution"
              else py_str (lookup mkvs "content" (JStr ""))))
  /\ (truthy usage = true -> is_dict usage = false ->
      Blocks.handle_event self (steps, n) (JObj kvs) = Raise AttributeError).
Proof.
  intros Ht Hm Hc usage. subst usage.
  rewrite (blocks_assistant_eq _ _ _ _ _ Ht Hm).
  assert (Hct : calls_and_text (lookup mkvs "content" (JStr ""))
                = ([], py_str (lookup mkvs "content" (JStr "")))).
  { unfold calls_and_text.
    destruct (lookup mkvs "content" (JStr "")) as [ | | | | blocks | ];
      try reflexivity.
    exfalso. apply (Hc blocks). reflexivity. }
  rewrite Hct. cbn [fst snd]. unfold gets_stdout, gets_usage. cbn [nonempty].
  rewrite andb_false_r. cbn [negb orb].
  split.
  - intros Hu.
    assert (Hg : negb (truthy (lookup mkvs "usage" (JObj [])))
                 || is_dict (lookup mkvs "usage" (JObj [])) = true).
    { destruct Hu as [-> | ->]; [reflexivity | apply orb_true_r]. }
    rewrite Hg. cbn [andb].
    eexists. split; [reflexivity |]. simpl.
    repeat split.
    unfold py_or. simpl truthy.
    destruct (String.eqb (py_str (lookup mkvs "content" (JStr ""))) "");
      reflexivity.
  - intros -> ->. reflexivity.
Qed.

Lemma plain_text_assistant_step_witness :
  (exists s,
     Blocks.handle_event sample_agent ([], 0%nat)
       (JObj [("type", JStr "assistant");
              ("message", JObj [("content", JStr "done")]);
              ("toolUseResult", JStr "Error: no such file")])
     = Ret ([s], 1%nat)
     /\ source s = SrcAgent /\ tool_calls s = None /\ observation s = None
     /\ message s = JStr "done")
  /\ Blocks.handle_event sample_agent ([], 0%nat)
       (JObj [("type", JStr "assistant");
              ("message", JObj [("content", JStr "done");
                                ("usage", JStr "n/a")])])
     = Raise AttributeError.
Proof.
  split.
  - apply (plain_text_assistant_step sample_agent [] 0
             [("type", JStr "assistant");
              ("message", JObj [("content", JStr "done")]);
              ("toolUseResult", JStr "Error: no such file")]
             [("content", JStr "done")]).
    + reflexivity.
    + reflexivity.
    + intros blocks. discriminate.
    + left. reflexivity.
  - apply (plain_text_assistant_step sample_agent [] 0
             [("type", JStr "assistant");
              ("message", JObj [("content", JStr "done");
                                ("usage", JStr "n/a")])]
             [("content", JStr "done"); ("usage", JStr "n/a")]).
    + reflexivity.
    + reflexivity.
    + intros blocks. discriminate.
    + reflexivity.
    + reflexivity.
Defined.

(** X16: a content-block [user] event opens a user Step whose message
    is the stringified [message.content]: the text itself, the Python
    rendering of a list of blocks, the empty text when the event has no
    [message] or the message no [content].  A [message] that is not an
    object makes the handler raise an [AttributeError]. *)
Theorem block_user_event self steps n kvs :
  py_eq (lookup kvs "type" JNull) (JStr "user") = true ->
  (forall mkvs,
     lookup kvs "message" (JObj []) = JObj mkvs ->
     Blocks.handle_event self (steps, n) (JObj kvs)
     = Ret ((steps ++ [blocks_user_step n kvs mkvs])%list, S n))
  /\ (assoc "message" kvs = None ->
      Blocks.handle_event self (steps, n) (JObj kvs)
      = Ret ((steps ++ [mkStep (S n) (lookup kvs "timestamp" JNull) SrcUser
                               (JStr "") JNull JNull None None None])%list,
             S n))
  /\ (is_dict (lookup kvs "message" (JObj [])) = false ->
      Blocks.handle_event self (steps, n) (JObj kvs) = Raise AttributeError).
Proof.
  intros Ht.
  assert (Heq : Blocks.handle_event self (steps, n) (JObj kvs)
                = content <- get (lookup kvs "message" (JObj [])) "content"
                               (JStr "") ;;
                  Ret ((steps ++ [mkStep (S n) (lookup kvs "timestamp" JNull)
                                         SrcUser (JStr (py_str content))
                                         JNull JNull None None None])%list,
                       S n)).
  { cbv beta iota delta [Blocks.handle_event get bind]. rewrite Ht.
    destruct (lookup kvs "message" (JObj [])); reflexivity. }
  rewrite Heq. split; [| split].
  - intros mkvs ->. reflexivity.
  - intros Hnone. unfold lookup at 1. rewrite Hnone. reflexivity.
  - intros Hd. destruct (lookup kvs "message" (JObj []));
      try discriminate Hd; reflexivity.
Qed.

Lemma block_user_event_witness :
  Blocks.handle_event sample_agent ([], 0%nat)
    (JObj [("type", JStr "user"); ("message", JStr "fix bug")])
  = Raise AttributeError
  /\ Blocks.handle_event sample_agent ([], 0%nat)
       (JObj [("type", JStr "user");
              ("message",
               JObj [("content", JArr [JObj [("type", JStr "text");
                                             ("text", JStr "hi")]])])])
     = Ret ([mkStep 1 JNull SrcUser (JStr "[{'type': 'text', 'text': 'hi'}]")
                    JNull JNull None None None], 1%nat).
Proof.
  split.
  - apply (proj2 (proj2 (block_user_event sample_agent [] 0
                           [("type", JStr "user"); ("message", JStr "fix bug")]
                           eq_refl))).
    reflexivity.
  - apply (proj1 (block_user_event sample_agent [] 0
                    [("type", JStr "user");
                     ("message",
                      JObj [("content", JArr [JObj [("type", JStr "text");
                                                    ("text", JStr "hi")]])])]
                    eq_refl)
             [("content", JArr [JObj [("type", JStr "text");
                                      ("text", JStr "hi")]])]).
    reflexivity.
Defined.

(** ** Token totals, from the events *)

Lemma exact_sum_app f l1 l2 :
  exact_sum f (l1 ++ l2) = exact_sum f l1 + exact_sum f l2.
Proof. induction l1 as [| s l1 IH]; simpl; [| rewrite IH]; lia. Qed.

Lemma usage_metrics_count f key :
  (forall a b c,
     f (mkMetrics a b c)
     = match key with
       | "input_tokens" => a
       | "output_tokens" => b
       | _ => c
       end) ->
  key = "input_tokens" \/ key = "output_tokens"
  \/ key = "cache_read_input_tokens" ->
  forall usage,
    match usage_metrics usage with
    | Some m => count_of (f m)
    | None => 0
    end = count_of (field usage key JNull).
Proof.
  intros Hf Hkey usage. unfold usage_metrics.
  destruct (truthy usage) eqn:Hu.
  - rewrite Hf. destruct Hkey as [-> | [-> | ->]]; reflexivity.
  - destruct usage as [ | b | z | s | l | ukvs]; try reflexivity.
    destruct ukvs; [reflexivity | discriminate Hu].
Qed.

Lemma blocks_loop_tokens f key self :
  (forall usage,
     match usage_metrics usage with
     | Some m => count_of (f m)
     | None => 0
     end = count_of (field usage key JNull)) ->
  forall events steps n steps' n',
    for_each (Blocks.handle_event self) events (steps, n) = Ret (steps', n') ->
    exact_sum f steps' = exact_sum f steps + sum_events key events.
Proof.
  intros Hf events.
  induction events as [| e rest IH]; intros steps n steps' n' Hrun;
    cbn [for_each] in Hrun.
  - injection Hrun as <- _. simpl. lia.
  - apply bind_Ret in Hrun. destruct Hrun as [[steps1 n1] [Hstep Hrest]].
    pose proof (handle_event_dict BlockEncoding _ _ _ _ Hstep) as Hd.
    destruct e as [ | | | | | kvs]; try discriminate Hd. clear Hd.
    apply IH in Hrest. rewrite Hrest. cbn [sum_events].
    unfold event_usage, event_type_of.
    destruct (blocks_creates_step_cases kvs) as [[_ [Ht | Ht]] | Hc].
    + destruct (blocks_user _ _ _ _ _ Ht Hstep) as [mkvs [_ Heq]].
      injection Heq as -> _. apply py_eq_str in Ht. rewrite Ht.
      rewrite exact_sum_app. simpl. lia.
    + destruct (blocks_assistant _ _ _ _ _ Ht Hstep) as [mkvs [Hm Heq]].
      injection Heq as -> _. rewrite Ht. rewrite exact_sum_app.
      cbn [exact_sum]. unfold tokens. cbn [metrics field].
      rewrite Hm. cbn [field].
      pose proof (Hf (lookup mkvs "usage" (JObj []))) as Hu.
      unfold count_of in Hu. unfold count_of. rewrite <- Hu.
      destruct (usage_metrics (lookup mkvs "usage" (JObj []))); lia.
    + rewrite (blocks_unknown _ _ _ _ Hc) in Hstep. injection Hstep as <- _.
      unfold Blocks.creates_step, event_type_of in Hc.
      apply orb_false_elim in Hc. destruct Hc as [_ ->]. lia.
Qed.

(** X17: in a trajectory of the content-block version the three token
    totals are, read off the log, the sums over the [assistant] events
    of [message.usage.input_tokens], [output_tokens] and
    [cache_read_input_tokens] (an event without the count adding zero),
    reported as absent when the sum is zero. *)
Theorem block_totals_sum_event_usage self version log t :
  Blocks._convert_events_to_trajectory self version log = Ret (Some t) ->
  exists fm,
    final_metrics t = Some fm
    /\ total_prompt_tokens fm
       = reported (sum_events "input_tokens" (read_events log))
    /\ total_completion_tokens fm
       = reported (sum_events "output_tokens" (read_events log))
    /\ total_cached_tokens fm
       = reported (sum_events "cache_read_input_tokens" (read_events log)).
Proof.
  intros H. apply (convert_Some BlockEncoding self version) in H.
  destruct H as [n [Hrun [_ [tp [tc [tk [Hp [Hc [Hk Hfm]]]]]]]]].
  apply sum_from_exact in Hp, Hc, Hk. simpl in Hp, Hc, Hk. subst tp tc tk.
  unfold handle_event in Hrun.
  eexists. split; [exact Hfm |]. simpl. rewrite !or_None_reported.
  rewrite (blocks_loop_tokens prompt_tokens "input_tokens" self
             (usage_metrics_count _ _ (fun a b c => eq_refl) (or_introl eq_refl))
             _ _ _ _ _ Hrun).
  rewrite (blocks_loop_tokens completion_tokens "output_tokens" self
             (usage_metrics_count _ _ (fun a b c => eq_refl)
                (or_intror (or_introl eq_refl)))
             _ _ _ _ _ Hrun).
  rewrite (blocks_loop_tokens cached_tokens "cache_read_input_tokens" self
             (usage_metrics_count _ _ (fun a b c => eq_refl)
                (or_intror (or_intror eq_refl)))
             _ _ _ _ _ Hrun).
  repeat split.
Qed.

Lemma block_totals_sum_event_usage_witness :
  exists t,
    Blocks._convert_events_to_trajectory sample_agent (JStr "0.1") usage_log
    = Ret (Some t)
    /\ option_map total_prompt_tokens (final_metrics t) = Some (Some 17)
    /\ option_map total_cached_tokens (final_metrics t) = Some None.
Proof.
  assert (H : exists t,
             Blocks._convert_events_to_trajectory sample_agent (JStr "0.1")
               usage_log = Ret (Some t)).
  { eexists. vm_compute. reflexivity. }
  destruct H as [t Hconv]. exists t. split; [exact Hconv |].
  destruct (block_totals_sum_event_usage sample_agent (JStr "0.1") usage_log
              t Hconv) as [fm [Hfm [Hp [_ Hk]]]].
  rewrite Hfm. simpl. rewrite Hp, Hk. split; reflexivity.
Defined.

(** ** The run commands *)

Lemma in_word_shape line : forall q,
  sh_words q true line = None
  \/ exists w ws, sh_words q true line = Some (w :: ws).
Proof.
  assert (Hpush : forall c r, push c r = None
                              \/ exists w ws, push c r = Some (w :: ws)).
  { intros c [[| w ws] |]; simpl; eauto. }
  induction line as [| c rest IH]; intros q.
  - destruct q; simpl; eauto.
  - destruct q; simpl.
    + destruct (Ascii.eqb c " ").
      { destruct (sh_words Bare false rest); simpl; eauto. }
      destruct (Ascii.eqb c squote); [apply IH |].
      destruct (Ascii.eqb c dquote); [apply IH |].
      destruct (is_safe c); [apply Hpush | auto].
    + destruct (Ascii.eqb c squote); [apply IH | apply Hpush].
    + destruct (Ascii.eqb c dquote); [apply IH |].
      destruct (Ascii.eqb c backslash || Ascii.eqb c "$" || Ascii.eqb c "`");
        [auto | apply Hpush].
Qed.

Lemma pushs_empty q line :
  pushs "" (sh_words q true line) = sh_words q true line.
Proof.
  destruct (in_word_shape line q) as [-> | [w [ws ->]]]; reflexivity.
Qed.

Lemma pushs_cons c s r : pushs (String c s) r = push c (pushs s r).
Proof. destruct r as [[| w ws] |]; reflexivity. Qed.

Lemma pushs_end_of_word s r :
  pushs s (option_map (cons "") r) = option_map (cons s) r.
Proof. destruct r; simpl; [rewrite append_empty_r |]; reflexivity. Qed.

Lemma safe_is_plain c :
  is_safe c = true ->
  Ascii.eqb c " " = false /\ Ascii.eqb c squote = false
  /\ Ascii.eqb c dquote = false.
Proof.
  destruct c as [[|] [|] [|] [|] [|] [|] [|] [|]];
    intros H; try discriminate H; repeat split.
Qed.

(** A single-quoted text is read back as it was before quoting. *)
Lemma single_quoted_read_back s rest :
  sh_words Single true (replace_squote s ++ String squote rest)
  = pushs s (sh_words Bare true rest).
Proof.
  induction s as [| c s IH].
  - simpl. symmetry. apply pushs_empty.
  - rewrite pushs_cons. cbn [replace_squote].
    destruct (Ascii.eqb c squote) eqn:Hc.
    + apply Ascii.eqb_eq in Hc. subst c.
      change (sh_words Single true
                (String squote (String dquote (String squote (String dquote
                   (String squote (replace_squote s)))))
                   ++ String squote rest))
        with (push squote
                (sh_words Single true
                   (replace_squote s ++ String squote rest))).
      rewrite IH. reflexivity.
    + cbn [append sh_words]. rewrite Hc, IH. reflexivity.
Qed.

Lemma bare_safe_step c b line :
  is_safe c = true ->
  sh_words Bare b (String c line) = push c (sh_words Bare true line).
Proof.
  intros Hc. destruct (safe_is_plain c Hc) as [H1 [H2 H3]].
  cbn [sh_words]. rewrite H1, H2, H3, Hc. reflexivity.
Qed.

(** A bare safe text is read back as it is. *)
Lemma safe_read_back s : forall c b rest,
  is_safe c = true -> all_safe s = true ->
  sh_words Bare b (String c s ++ rest)
  = pushs (String c s) (sh_words Bare true rest).
Proof.
  induction s as [| c' s IH]; intros c b rest Hc Hs.
  - change (String c "" ++ rest) with (String c rest).
    rewrite (bare_safe_step c b rest Hc), pushs_cons, pushs_empty. reflexivity.
  - simpl in Hs. apply andb_prop in Hs. destruct Hs as [Hc' Hs].
    change (String c (String c' s) ++ rest) with (String c (String c' s ++ rest)).
    rewrite (bare_safe_step c b _ Hc), (IH c' true rest Hc' Hs), !pushs_cons.
    reflexivity.
Qed.

(** What [shlex.quote] writes is read back as one word. *)
Lemma quoted_read_back s rest :
  sh_words Bare false (shlex_quote s ++ String " " rest)
  = option_map (cons s) (sh_words Bare false rest).
Proof.
  assert (Hend : sh_words Bare true (String " " rest)
                 = option_map (cons "") (sh_words Bare false rest))
    by reflexivity.
  unfold shlex_quote. destruct s as [| c s].
  - simpl. destruct (sh_words Bare false rest); reflexivity.
  - cbn [String.eqb].
    destruct (all_safe (String c s)) eqn:Hsafe.
    + simpl in Hsafe. apply andb_prop in Hsafe. destruct Hsafe as [Hc Hs].
      rewrite (safe_read_back s c false _ Hc Hs), Hend.
      apply pushs_end_of_word.
    + cbn [append].
      change (sh_words Bare false
                (String squote
                   ((replace_squote (String c s) ++ String squote "")
                      ++ String " " rest)))
        with (sh_words Single true
                ((replace_squote (String c s) ++ String squote "")
                   ++ String " " rest)).
      rewrite append_assoc. cbn [append].
      rewrite single_quoted_read_back, Hend. apply pushs_end_of_word.
Qed.

Lemma end_of_word rest :
  sh_words Bare true (String " " rest)
  = option_map (cons "") (sh_words Bare false rest).
Proof. reflexivity. Qed.

Lemma safe_word_read_back c s b rest :
  is_safe c = true -> all_safe s = true ->
  sh_words Bare b (String c s ++ String " " rest)
  = option_map (cons (String c s)) (sh_words Bare false rest).
Proof.
  intros Hc Hs. rewrite (safe_read_back s c b _ Hc Hs), end_of_word.
  apply pushs_end_of_word.
Qed.

Lemma flat_prefix_words rest :
  sh_words Bare false
    ("/root/.bun/bin/bun /agent/packages/cea/src/entrypoints/headless.ts -p "
       ++ rest)
  = option_map
      (fun ws => "/root/.bun/bin/bun"
                 :: "/agent/packages/cea/src/entrypoints/headless.ts"
                 :: "-p" :: ws)
      (sh_words Bare false rest).
Proof.
  change ("/root/.bun/bin/bun /agent/packages/cea/src/entrypoints/headless.ts -p "
            ++ rest)
    with ("/root/.bun/bin/bun"
            ++ String " " ("/agent/packages/cea/src/entrypoints/headless.ts"
                             ++ String " " ("-p" ++ String " " rest))).
  rewrite !safe_word_read_back by (vm_compute; reflexivity).
  destruct (sh_words Bare false rest); reflexivity.
Qed.

Lemma blocks_prefix_words rest :
  sh_words Bare false ("bun run headless -p " ++ rest)
  = option_map (fun ws => "bun" :: "run" :: "headless" :: "-p" :: ws)
      (sh_words Bare false rest).
Proof.
  change ("bun run headless -p " ++ rest)
    with ("bun" ++ String " " ("run" ++ String " " ("headless"
            ++ String " " ("-p" ++ String " " rest)))).
  rewrite !safe_word_read_back by (vm_compute; reflexivity).
  destruct (sh_words Bare false rest); reflexivity.
Qed.

Lemma flags_words environ :
  sh_words Bare false (join " " (FlatRun.flags environ) ++ " ")
  = Some (FlatRun.flags environ).
Proof.
  unfold FlatRun.flags.
  destruct (enabled environ "AGENT_ENABLE_THINKING");
    destruct (enabled environ "AGENT_ENABLE_TOOL_FALLBACK");
    vm_compute; reflexivity.
Qed.

Lemma token_entry_spec environ :
  drop_empty [("FRIENDLI_TOKEN", environ_get environ "FRIENDLI_TOKEN" "")]
  = token_entry environ.
Proof.
  unfold drop_empty, token_entry, environ_get.
  destruct (environ "FRIENDLI_TOKEN") as [v |]; simpl; [| reflexivity].
  destruct (String.eqb v ""); reflexivity.
Qed.

Lemma model_arg_words self rest m_arg :
  FlatRun.model_arg self = Ret m_arg ->
  sh_words Bare false (m_arg ++ String " " rest)
  = option_map (app (model_words self)) (sh_words Bare false rest).
Proof.
  unfold FlatRun.model_arg, model_words. intros H.
  destruct (self_model_name self) as [ | b | z | m | l | kvs]; simpl in H.
  - injection H as <-. simpl. destruct (sh_words Bare false rest); reflexivity.
  - destruct b; [discriminate H |]. injection H as <-. simpl.
    destruct (sh_words Bare false rest); reflexivity.
  - destruct (z =? 0); [| discriminate H]. injection H as <-. simpl.
    destruct (sh_words Bare false rest); reflexivity.
  - destruct (String.eqb m "") eqn:Hm; simpl in H; injection H as <-.
    + simpl. destruct (sh_words Bare false rest); reflexivity.
    + change (sh_words Bare false
                (String "-" (String "m" (String " "
                   (shlex_quote m ++ String " " rest))))
              = option_map (app ["-m"; m]) (sh_words Bare false rest)).
      rewrite (bare_safe_step "-" false _ eq_refl).
      rewrite (bare_safe_step "m" true _ eq_refl).
      change (sh_words Bare true
                (String " " (shlex_quote m ++ String " " rest)))
        with (option_map (cons "")
                (sh_words Bare false (shlex_quote m ++ String " " rest))).
      rewrite quoted_read_back.
      destruct (sh_words Bare false rest); reflexivity.
  - destruct l; [| discriminate H]. injection H as <-. simpl.
    destruct (sh_words Bare false rest); reflexivity.
  - destruct kvs; [| discriminate H]. injection H as <-. simpl.
    destruct (sh_words Bare false rest); reflexivity.
Qed.

Lemma model_arg_cases self :
  (model_is_text self /\ exists m_arg, FlatRun.model_arg self = Ret m_arg)
  \/ (~ model_is_text self /\ FlatRun.model_arg self = Raise TypeError).
Proof.
  unfold model_is_text, FlatRun.model_arg.
  destruct (truthy (self_model_name self)) eqn:Ht.
  - destruct (self_model_name self) as [ | b | z | m | l | kvs] eqn:Hm.
    4: { left. split; [right; exists m; reflexivity | eexists; reflexivity]. }
    all: right; split; [| reflexivity];
      intros [H | [m H]]; discriminate H.
  - left. split; [left; reflexivity | eexists; reflexivity].
Qed.

(** X18: the flat version returns two commands: [mkdir -p /logs/agent]
    without environment, and the run command, whose environment holds
    [FRIENDLI_TOKEN] only when it is set and not empty, besides
    [BUN_INSTALL] and [PATH].  Up to the redirection into
    [/logs/agent/output.jsonl], a shell reads the run command as the bun
    binary, the entry point, [-p] and the instruction as one unaltered
    word whatever characters it holds, then [-m] and the model name when
    the run has one, then the enabled flags.  A model name that is
    neither a text nor empty makes the call raise a [TypeError]. *)
Theorem flat_run_commands self environ instruction :
  (model_is_text self ->
   exists head,
     FlatRun.create_run_agent_commands self environ instruction
     = Ret [mkExecInput "mkdir -p /logs/agent" None;
            mkExecInput (head ++ tee_output)
              (Some (token_entry environ
                       ++ [("BUN_INSTALL", "/root/.bun");
                           ("PATH",
                            "/root/.bun/bin:/usr/local/bin:/usr/bin:/bin")])%list)]
     /\ sh_words Bare false head
        = Some (["/root/.bun/bin/bun";
                 "/agent/packages/cea/src/entrypoints/headless.ts";
                 "-p"; instruction]
                  ++ model_words self ++ FlatRun.flags environ)%list)
  /\ (~ model_is_text self ->
      FlatRun.create_run_agent_commands self environ instruction
      = Raise TypeError).
Proof.
  unfold FlatRun.create_run_agent_commands.
  destruct (model_arg_cases self) as [[Hok [m_arg Hm]] | [Hbad Hm]];
    rewrite Hm; cbn [bind]; split; try (intros H; contradiction);
    [| reflexivity].
  intros _.
  exists ("/root/.bun/bin/bun /agent/packages/cea/src/entrypoints/headless.ts -p "
            ++ shlex_quote instruction ++ " " ++ m_arg ++ " "
            ++ join " " (FlatRun.flags environ) ++ " ").
  split.
  - assert (Henv :
      drop_empty
        [("FRIENDLI_TOKEN", environ_get environ "FRIENDLI_TOKEN" "");
         ("BUN_INSTALL", "/root/.bun");
         ("PATH", "/root/.bun/bin:/usr/local/bin:/usr/bin:/bin")]
      = (token_entry environ
           ++ [("BUN_INSTALL", "/root/.bun");
               ("PATH", "/root/.bun/bin:/usr/local/bin:/usr/bin:/bin")])%list).
    { unfold drop_empty, token_entry, environ_get.
      destruct (environ "FRIENDLI_TOKEN") as [v |]; simpl; [| reflexivity].
      destruct (String.eqb v ""); reflexivity. }
    rewrite Henv, !append_assoc. reflexivity.
  - rewrite flat_prefix_words.
    change (" " ++ m_arg ++ " " ++ join " " (FlatRun.flags environ) ++ " ")
      with (String " " (m_arg
                          ++ String " " (join " " (FlatRun.flags environ) ++ " "))).
    rewrite quoted_read_back, (model_arg_words self _ m_arg Hm), flags_words.
    reflexivity.
Qed.

Lemma flat_run_commands_witness :
  exists head,
    FlatRun.create_run_agent_commands sample_agent sample_environ
      unsafe_instruction
    = Ret [mkExecInput "mkdir -p /logs/agent" None;
           mkExecInput (head ++ tee_output)
             (Some [("FRIENDLI_TOKEN", "tok-1"); ("BUN_INSTALL", "/root/.bun");
                    ("PATH", "/root/.bun/bin:/usr/local/bin:/usr/bin:/bin")])]
    /\ sh_words Bare false head
       = Some ["/root/.bun/bin/bun";
               "/agent/packages/cea/src/entrypoints/headless.ts";
               "-p"; unsafe_instruction; "-m"; "sample-model"; "--think"].
Proof.
  apply (proj1 (flat_run_commands sample_agent sample_environ
                  unsafe_instruction)).
  right. exists "sample-model". reflexivity.
Defined.

(** X19: the content-block version returns two commands:
    [mkdir -p /logs/agent] without environment, and the run command,
    whose environment holds [FRIENDLI_TOKEN] only when it is set and not
    empty.  After its setup ([export ...], [cd /app]) and up to the
    redirection, a shell reads the run command as [bun run headless -p]
    and the instruction as one unaltered word whatever characters it
    holds. *)
Theorem blocks_run_commands environ instruction :
  exists head,
    BlocksRun.create_run_agent_commands environ instruction
    = [mkExecInput "mkdir -p /logs/agent" None;
       mkExecInput
         ("export BUN_INSTALL=$HOME/.bun && export PATH=$BUN_INSTALL/bin:$PATH && cd /app && "
            ++ head ++ tee_output)
         (Some (token_entry environ))]
    /\ sh_words Bare false head
       = Some ["bun"; "run"; "headless"; "-p"; instruction].
Proof.
  exists ("bun run headless -p " ++ shlex_quote instruction ++ " ").
  split.
  - unfold BlocksRun.create_run_agent_commands. rewrite token_entry_spec.
    rewrite !append_assoc. reflexivity.
  - rewrite blocks_prefix_words.
    change (shlex_quote instruction ++ " ")
      with (shlex_quote instruction ++ String " " "").
    rewrite quoted_read_back. reflexivity.
Qed.

(** ** Finding the log file *)

(** X20: both versions take [logs_dir/agent/output.jsonl] when it
    exists, whatever else is there; only the flat version falls back to
    [logs_dir/output.jsonl], so a run that left its log only there is
    converted by the flat version and left alone, context untouched, by
    the content-block version. *)
Theorem log_file_precedence self version context :
  (forall log,
     agent_output_jsonl (logs_dir self) = Some log ->
     Flat._get_log_file self = Some log /\ Blocks._get_log_file self = Some log)
  /\ (agent_output_jsonl (logs_dir self) = None ->
      Flat._get_log_file self = output_jsonl (logs_dir self)
      /\ Blocks._get_log_file self = None
      /\ Blocks.populate_context_post_run self version context
         = (logs_dir self, context)).
Proof.
  unfold Flat._get_log_file, Blocks._get_log_file,
         Blocks.populate_context_post_run, Blocks._get_log_file.
  split.
  - intros log ->. split; reflexivity.
  - intros ->. repeat split.
    destruct (output_jsonl (logs_dir self)); reflexivity.
Qed.

Lemma log_file_precedence_witness :
  Flat._get_log_file sample_log_agent = Some sample_log
  /\ Blocks._get_log_file sample_log_agent = None
  /\ Blocks.populate_context_post_run sample_log_agent JNull prior_context
     = (logs_dir sample_log_agent, prior_context).
Proof.
  apply (proj2 (log_file_precedence sample_log_agent JNull prior_context)).
  reflexivity.
Defined.
